(** * ACBS: the build driver, the dependency coordinator and the host
      package-manager bridge

    A shallow embedding of [acbs/pm.py], [acbs/deps.py] and
    [BuildCore.build] of [acbs/main.py], followed by the properties of
    the design document that concern them.

    Conventions.
    - Python [str] values are [string]s: a character stands for its
      code point, so the strings are those of code points below 256.
    - A Python [set] of names is a [gset string].
    - Effectful code is written in a writer/state/error monad over an
      abstract world: running a computation yields the outcome (a value
      or a raised exception), the new world, and the list of observable
      events (log records, prints, calls of helpers that live outside
      the three modules) in the order they happen.
    - Everything the three modules import from the rest of the
      repository ([PackageManager], [find_package], [tarjan_search],
      [invoke_autobuild], ...) and [subprocess] is an interface: a type
      class whose methods are arbitrary functions of the world; the
      one law is that the package manager does not raise the
      self-dependency error of [deps.py].  *)

From Stdlib Require Import Floats.PrimFloat.
From Stdlib Require Import Strings.Ascii.
From stdpp Require Import base strings list gmap.
From Equations Require Import Equations.

(** ** Python-level basics *)

(** The exceptions the modelled code raises or lets through. *)
Inductive exn : Type :=
| RuntimeError (msg : string)
| ACBSGeneralError (msg : string)
| TypeError (msg : string)
| CalledProcessError
| OtherError (tag : string).

Inductive outcome (A : Type) : Type :=
| Ok (a : A)
| Raise (e : exn).
Arguments Ok {A} a.
Arguments Raise {A} e.

(** [except subprocess.CalledProcessError] *)
Definition is_CalledProcessError (e : exn) : bool :=
  match e with CalledProcessError => true | _ => false end.

(** What [Dependencies.process_deps] hands back: [None], a list or a set. *)
Inductive pyval : Type :=
| PyNone
| PyList (l : list string)
| PySet (s : gset string).

(** ** [re.sub] for the one pattern the bridge uses *)
Module Re.

(** The character class of [r'([+*?])']: the pattern matches exactly one
    character of the class and captures it as group 1. *)
Definition in_class (cls : list ascii) (c : ascii) : bool :=
  existsb (Ascii.eqb c) cls.

(** Expansion of a replacement template: [\\] stands for one backslash
    and [\1] for the text of group 1; any other character stands for
    itself. *)
Fixpoint expand (template : string) (group1 : string) : string :=
  match template with
  | EmptyString => EmptyString
  | String c rest =>
      if Ascii.eqb c "\" then
        match rest with
        | String d rest' =>
            if Ascii.eqb d "\" then String "\" (expand rest' group1)
            else if Ascii.eqb d "1" then group1 +:+ expand rest' group1
            else String c (String d (expand rest' group1))
        | EmptyString => String c EmptyString
        end
      else String c (expand rest group1)
  end.

(** [re.sub('([cls])', template, s)]: scan left to right; every
    character of the class is a match (matches cannot overlap, they are
    one character long) and is replaced by the expanded template. *)
Fixpoint sub (cls : list ascii) (template : string) (s : string) : string :=
  match s with
  | EmptyString => EmptyString
  | String c rest =>
      if in_class cls c
      then expand template (String c EmptyString) +:+ sub cls template rest
      else String c (sub cls template rest)
  end.

End Re.

(** ** [acbs/pm.py], pure part *)

(** The pattern [r'([+*?])']. *)
Definition metacharacters : list ascii := ["+"; "*"; "?"]%char.

(** The replacement: the Python literal ['\\\\\\1'] denotes the four
    characters backslash, backslash, backslash, [1]. *)
Definition replacement : string := "\\\1".

(** [escape_package_name], pm.py line 27. *)
Definition escape_package_name (name : string) : string :=
  Re.sub metacharacters replacement name.

Definition is_metacharacter (c : ascii) : bool :=
  Re.in_class metacharacters c.

Fixpoint count_metacharacters (s : string) : nat :=
  match s with
  | EmptyString => 0
  | String c rest =>
      (if is_metacharacter c then 1 else 0) + count_metacharacters rest
  end.

Fixpoint no_metacharacter (s : string) : bool :=
  match s with
  | EmptyString => true
  | String c rest => negb (is_metacharacter c) && no_metacharacter rest
  end.

(** The reading of the design document: every metacharacter gets one
    backslash in front of it, every other character is copied. *)
Fixpoint backslash_prefixed (s : string) : string :=
  match s with
  | EmptyString => EmptyString
  | String c rest =>
      if is_metacharacter c
      then String "\" (String c (backslash_prefixed rest))
      else String c (backslash_prefixed rest)
  end.

(** ** The package data model ([acbs.base.ACBSPackageInfo]) *)

(** Modelled from the spec: the class [ACBSPackageInfo] and its source
    descriptor are declared in [acbs/base.py], outside the three
    modules; the record keeps the attributes the code reads or assigns.
    An unset attribute ([None] or ['']) is the empty string or list:
    the code tests these attributes by truthiness only. *)
Record SourceInfo : Type := mkSourceInfo {
  locator : string;
  subdir : string
}.

(** Modelled from the spec: the [PackageTask] of the data model, with
    the attribute names the code uses. *)
Record ACBSPackageInfo : Type := mkPackage {
  name : string;
  deps : list string;
  installables : list string;
  base_slug : string;
  build_location : string;
  source_uri : SourceInfo
}.

(** [package.deps = deps; package.installables = installables] *)
Definition set_deps (package : ACBSPackageInfo) (ds ins : list string)
  : ACBSPackageInfo :=
  mkPackage (name package) ds ins (base_slug package)
            (build_location package) (source_uri package).

(** [task.build_location = build_dir] *)
Definition set_build_location (task : ACBSPackageInfo) (dir : string)
  : ACBSPackageInfo :=
  mkPackage (name task) (deps task) (installables task) (base_slug task)
            dir (source_uri task).

(** One entry of [build_timings]: the package name and the difference of
    two [time.monotonic()] readings, a binary64 float. *)
Definition BuildTiming : Type := string * float.

(** ** Observable events *)

Inductive level : Type := DEBUG | INFO | WARNING | ERROR.

(** The arguments of a format string, kept unrendered. *)
Inductive fmt_arg : Type :=
| AStr (s : string)
| ANat (n : nat)
| AStrs (l : list string)
| ASet (s : gset string)
| APkgs (l : list ACBSPackageInfo).

(** Calls that leave the three modules. *)
Inductive call : Type :=
| Spawn (command : list string)
| InstallPkgs (pkgs : list string)
| CorrectDeps
| FindPackage (i : string)
| GetDepsGraph (packages : list ACBSPackageInfo)
| TarjanSearch
| CheckPackageGroups (packages : list ACBSPackageInfo)
| HasStamp (location : string)
| FetchSource (task : ACBSPackageInfo) (source_name : string)
| MakeBuildDir
| ProcessSource (task : ACBSPackageInfo) (source_name : string)
| TouchStamp (path : string)
| GuessSubdir (build_dir : string)
| InvokeAutobuild (task : ACBSPackageInfo) (build_dir : string)
| Monotonic
| PrintBuildTimings (timings : list BuildTiming).

Inductive event : Type :=
| Log (lvl : level) (fmt : string) (args : list fmt_arg)
| Print (line : string)
| Call (c : call).

(** ** The monad of effectful code *)

Definition M (World A : Type) : Type :=
  World -> outcome A * World * list event.

Definition ret {World A} (a : A) : M World A :=
  fun w => (Ok a, w, []).

Definition bind {World A B} (m : M World A) (k : A -> M World B)
  : M World B :=
  fun w =>
    match m w with
    | (Ok a, w1, t1) =>
        match k a w1 with
        | (r, w2, t2) => (r, w2, t1 ++ t2)
        end
    | (Raise e, w1, t1) => (Raise e, w1, t1)
    end.

Definition raise {World A} (e : exn) : M World A :=
  fun w => (Raise e, w, []).

Definition emit {World} (ev : event) : M World unit :=
  fun w => (Ok tt, w, [ev]).

(** [try: m  except <handles>: handler]; an exception the clause does
    not handle passes through. *)
Definition try_except {World A} (m : M World A) (handles : exn -> bool)
    (handler : exn -> M World A) : M World A :=
  fun w =>
    match m w with
    | (Ok a, w1, t1) => (Ok a, w1, t1)
    | (Raise e, w1, t1) =>
        if handles e then
          match handler e w1 with
          | (r, w2, t2) => (r, w2, t1 ++ t2)
          end
        else (Raise e, w1, t1)
    end.

(** [except Exception] *)
Definition any_exception (e : exn) : bool := true.

(** A helper outside the modules: recorded in the trace, then run. *)
Definition external {World A} (c : call)
    (f : World -> outcome A * World) : M World A :=
  fun w => match f w with (r, w1) => (r, w1, [Call c]) end.

Declare Scope acbs_scope.
Delimit Scope acbs_scope with acbs.
Notation "x <- m ;; k" := (bind m (fun x => k))
  (at level 100, m at next level, right associativity) : acbs_scope.
Notation "m ;;; k" := (bind m (fun _ => k))
  (at level 100, right associativity) : acbs_scope.
Local Open Scope acbs_scope.

Definition logging {World} (lvl : level) (fmt : string)
    (args : list fmt_arg) : M World unit :=
  emit (Log lvl fmt args).

(** ** [acbs/pm.py], effectful part *)

(** [subprocess]: running a command changes the world and either returns
    (exit status 0) or raises: [CalledProcessError] on another exit
    status, something else when the program cannot be started. *)
Class Subprocess (World : Type) : Type := {
  spawn : list string -> World -> outcome unit * World
}.

Definition unable_to_correct : exn :=
  RuntimeError "Unable to correct package manager states...".

Module Pm.
Section WithSubprocess.
Context {World : Type} `{Subprocess World}.

(** [subprocess.check_call(command)] *)
Definition check_call (command : list string) : M World unit :=
  external (Spawn command) (spawn command).

(** [subprocess.check_output(command, stderr=subprocess.STDOUT)]; the
    callers drop the captured output. *)
Definition check_output (command : list string) : M World unit :=
  external (Spawn command) (spawn command).

(** pm.py lines 46-52 *)
Definition check_if_installed (name : string) : M World bool :=
  logging DEBUG "Checking if %s is installed" [AStr name] ;;;
  try_except
    (check_output ["dpkg"; "-s"; name] ;;; ret true)
    is_CalledProcessError
    (fun _ => ret false).

(** pm.py lines 55-61 *)
Definition check_if_available (name : string) : M World bool :=
  logging DEBUG "Checking if %s is available" [AStr name] ;;;
  try_except
    (check_output ["apt-cache"; "show"; escape_package_name name] ;;;
     ret true)
    is_CalledProcessError
    (fun _ => ret false).

(** The [for dep in package.deps] loop of [filter_dependencies], with its
    two accumulators. *)
Fixpoint filter_loop (todo installables deps : list string)
  : M World (list string * list string) :=
  match todo with
  | [] => ret (installables, deps)
  | dep :: todo' =>
      installed <- check_if_installed dep ;;
      if installed : bool then filter_loop todo' installables deps
      else
        available <- check_if_available dep ;;
        if available : bool
        then filter_loop todo' (installables ++ [dep]) deps
        else filter_loop todo' installables (deps ++ [dep])
  end.

(** pm.py lines 12-24.  The package is mutated only after the loop. *)
Definition filter_dependencies (package : ACBSPackageInfo)
  : M World ACBSPackageInfo :=
  r <- filter_loop (deps package) [] [] ;;
  ret (set_deps package (snd r) (fst r)).

Definition repair_command : list string := ["apt-get"; "install"; "-yf"].

Definition install_command (escaped : list string) : list string :=
  ["apt-get"; "install"; "-y"] ++ escaped.

(** The body of the [try] of [fix_pm_states], lines 35-38. *)
Definition repair_and_install (escaped : list string) : M World unit :=
  check_call repair_command ;;;
  check_call (install_command escaped).

(** The [while count < 3] loop of [fix_pm_states], lines 33-43. *)
Equations fix_pm_states_from (escaped : list string) (count : nat)
    (w : World) : outcome unit * World * list event
    by wf (3 - count) lt :=
  fix_pm_states_from escaped count w with lt_dec count 3 => {
    | left _ with repair_and_install escaped w => {
        | (Ok _, w1, t1) => (Ok tt, w1, t1)
        | (Raise _, w1, t1) =>
            match fix_pm_states_from escaped (S count) w1 with
            | (r, w2, t2) => (r, w2, t1 ++ t2)
            end };
    | right _ => (Raise unable_to_correct, w, []) }.
Next Obligation. lia. Qed.

(** pm.py lines 31-43 *)
Definition fix_pm_states (escaped : list string) : M World unit :=
  fix_pm_states_from escaped 0.

(** pm.py lines 64-76 *)
Definition install_from_repo (packages : list string) : M World unit :=
  logging DEBUG "Installing %s" [AStrs packages] ;;;
  let escaped := map escape_package_name packages in
  try_except
    (check_call (install_command escaped))
    is_CalledProcessError
    (fun _ =>
       logging WARNING
         "Failed to install dependencies, attempting to correct issues..." [] ;;;
       fix_pm_states escaped).

End WithSubprocess.
End Pm.

(** ** [acbs/deps.py] *)

(** The class [PackageManager] that [deps.py] imports is not part of the
    three modules; its four methods are taken as an interface.  The two
    queries read the host and return lists of names; an installation
    changes the host and may raise; so may [correct_deps].

    Modelled from the spec: state correction is "bounded at 3 attempts
    before fatal failure"; what it raises then is the package manager's
    own error, never the self-dependency error, which only line 29 of
    [deps.py] raises. *)
Class PackageManager (World : Type) : Type := {
  query_current_miss_pkgs : World -> list string -> list string;
  query_online_pkgs : World -> list string -> list string;
  install_pkgs : list string -> World -> outcome unit * World;
  correct_deps : World -> outcome unit * World;
  correct_deps_raises :
    forall w e w',
      correct_deps w = (Raise e, w') ->
      e <> ACBSGeneralError
             "The package can't depends on its self! And no binary package found!"
}.

(** Truthiness of a value that is [None] or a set of names. *)
Definition truthy_set (o : option (gset string)) : option (gset string) :=
  match o with
  | Some s => if decide (s = ∅) then None else Some s
  | None => None
  end.

(** [x or []] for a value that is [None] or a list. *)
Definition or_empty (o : option (list string)) : list string :=
  match o with
  | Some l => l
  | None => []
  end.

(** Characters [str.strip()] removes: white space as [str.isspace]
    sees it.  A character of a name stands for its code point, so the
    names are the strings of code points below 256: tab, line feed,
    vertical tab, form feed, carriage return, the four separators
    28-31, the space, NEXT LINE (133) and NO-BREAK SPACE (160). *)
Definition is_space (c : ascii) : bool :=
  let n := nat_of_ascii c in
  ((9 <=? n) && (n <=? 13)) || ((28 <=? n) && (n <=? 31)) || (n =? 32)
  || (n =? 133) || (n =? 160).

(** [not i.strip()] *)
Fixpoint blank (i : string) : bool :=
  match i with
  | EmptyString => true
  | String c rest => is_space c && blank rest
  end.

(** Modelled from the spec: [acbs.utils.uniq], which is not part of the
    three modules, "returns a new list preserving first-occurrence order
    with duplicate elements removed". *)
Fixpoint uniq_from (seen : gset string) (seq : list string) : list string :=
  match seq with
  | [] => []
  | x :: rest =>
      if decide (x ∈ seen) then uniq_from seen rest
      else x :: uniq_from ({[x]} ∪ seen) rest
  end.

(** Modelled from the spec: [uniq(seq)], the de-duplication above
    started with nothing seen. *)
Definition uniq (seq : list string) : list string := uniq_from ∅ seq.

Definition esc : string := String (ascii_of_nat 27) EmptyString.

Module Deps.

(** The instance state of [Dependencies]; [acbs_pm] is the
    [PackageManager] instance of the context. *)
Record Dependencies : Type := mkDependencies { retry : nat }.

(** [Dependencies.__init__], deps.py lines 8-10 *)
Definition init : Dependencies := mkDependencies 0.

Definition msg_checking : event :=
  Log INFO "Checking for dependencies, this may take a while..." [].
Definition msg_self_warning : event :=
  Log WARNING
    "The package depends on its self, however, it has binary package." [].
Definition msg_exhaust : event :=
  Log WARNING "Dependencies still didn't satisfy, entering exhaust mode..." [].
Definition msg_in_tree (s : gset string) : event :=
  Log INFO
      ("Building in-tree dependencies: " +:+ esc +:+ "[36m{}" +:+ esc +:+ "[0m")
      [ASet s].
Definition msg_all_met : event :=
  Log INFO "All dependencies are met. Continue." [].
Definition msg_will_install (pkgs : list string) : event :=
  Log INFO
      ("Will install " +:+ esc +:+ "[36m{}" +:+ esc +:+ "[0m as required.")
      [AStrs pkgs].
Definition msg_install_error : event :=
  Log WARNING "An error occurred when installing dependencies" [].
Definition msg_correcting : event :=
  Log INFO "Trying to correct dependencies..." [].
Definition self_dependency_error : exn :=
  ACBSGeneralError
    "The package can't depends on its self! And no binary package found!".
Definition set_plus_list_error : exn :=
  TypeError "unsupported operand type(s) for +: 'set' and 'list'".

Section WithPackageManager.
Context {World : Type} `{PackageManager World}.

(** deps.py lines 12-18: returns [(None, pkgs_not_avail)] or
    [(pkgs_to_install, None)]. *)
Definition search_deps (w : World) (search_pkgs : list string)
  : option (list string) * option (gset string) :=
  let pkgs_miss := query_current_miss_pkgs w search_pkgs in
  let pkgs_to_install := query_online_pkgs w pkgs_miss in
  let pkgs_not_avail : gset string :=
    list_to_set pkgs_miss ∖ list_to_set pkgs_to_install in
  if decide (pkgs_not_avail = ∅) then (Some pkgs_to_install, None)
  else (None, Some pkgs_not_avail).

(** The [for i in search_pkgs_tmp] loop, deps.py lines 25-36, with its
    accumulator [search_pkgs]. *)
Fixpoint check_self_dependency (w : World) (pkg_slug : string)
    (search_pkgs_tmp search_pkgs : list string)
  : outcome (list string) * list event :=
  match search_pkgs_tmp with
  | [] => (Ok search_pkgs, [])
  | i :: rest =>
      let search_pkgs' :=
        if blank i then search_pkgs else search_pkgs ++ [i] in
      if decide (i = pkg_slug) then
        match truthy_set (snd (search_deps w [i])) with
        | Some _ => (Raise self_dependency_error, [])
        | None =>
            match check_self_dependency w pkg_slug rest search_pkgs' with
            | (r, t) => (r, msg_self_warning :: t)
            end
        end
      else check_self_dependency w pkg_slug rest search_pkgs'
  end.

(** What every invocation logs before its checks, lines 21-24. *)
Definition prologue (build_deps run_deps : list string) : list event :=
  [msg_checking;
   Log DEBUG "Searching dependencies: {}" [AStrs (build_deps ++ run_deps)]].

(** deps.py lines 20-59.  The value of the recursive call of line 59 is
    dropped: that invocation falls off the end of the function and
    returns [None]; an exception of the recursive call propagates, and
    so does one of [correct_deps], raised before the counter is
    incremented. *)
Equations process_deps (self : Dependencies)
    (build_deps run_deps : list string) (pkg_slug : string) (w : World)
  : outcome pyval * Dependencies * World * list event
  by wf (2 - retry self) lt :=
  process_deps self build_deps run_deps pkg_slug w
    with check_self_dependency w pkg_slug (build_deps ++ run_deps) [] => {
    | (Raise e, t0) => (Raise e, self, w, prologue build_deps run_deps ++ t0)
    | (Ok search_pkgs, t0) with search_deps w search_pkgs => {
      | (pkgs_to_install, pkgs_not_avail) with le_lt_dec (retry self) 1 => {
        | right _ =>
            (* self.retry > 1 *)
            match truthy_set pkgs_not_avail with
            | Some s =>
                (* (pkgs_not_avail or []) is the set: set + list *)
                (Raise set_plus_list_error, self, w,
                 prologue build_deps run_deps ++ t0 ++ [msg_exhaust])
            | None =>
                (Ok (PyList (uniq ([] ++ or_empty pkgs_to_install))), self, w,
                 prologue build_deps run_deps ++ t0 ++ [msg_exhaust])
            end
        | left _ =>
            match truthy_set pkgs_not_avail with
            | Some s =>
                (Ok (PySet s), self, w,
                 prologue build_deps run_deps ++ t0 ++ [msg_in_tree s])
            | None =>
                match or_empty pkgs_to_install with
                | [] =>
                    (Ok PyNone, self, w,
                     prologue build_deps run_deps ++ t0 ++ [msg_all_met])
                | p :: ps =>
                    let t1 :=
                      prologue build_deps run_deps ++ t0 ++
                      [msg_will_install (p :: ps);
                       Call (InstallPkgs (p :: ps))] in
                    match install_pkgs (p :: ps) w with
                    | (Ok _, w1) => (Ok PyNone, self, w1, t1)
                    | (Raise _, w1) =>
                        let t2 :=
                          t1 ++
                          [msg_install_error; msg_correcting;
                           Call CorrectDeps] in
                        match correct_deps w1 with
                        | (Raise e, w2) =>
                            (* line 57 raises: line 58 is not reached *)
                            (Raise e, self, w2, t2)
                        | (Ok _, w2) =>
                            match process_deps (mkDependencies (S (retry self)))
                                    build_deps run_deps pkg_slug w2 with
                            | (Raise e, self', w3, t3) =>
                                (Raise e, self', w3, t2 ++ t3)
                            | (Ok _, self', w3, t3) =>
                                (Ok PyNone, self', w3, t2 ++ t3)
                            end
                        end
                    end
                end
            end } } }.
Next Obligation. simpl. lia. Qed.

End WithPackageManager.
End Deps.

(** ** [os.path] *)

Definition sep : ascii := "/"%char.

Fixpoint ends_with_sep (p : string) : bool :=
  match p with
  | EmptyString => false
  | String c EmptyString => Ascii.eqb c sep
  | String _ rest => ends_with_sep rest
  end.

(** [os.path.join(a, b)] (posixpath) *)
Definition path_join (a b : string) : string :=
  match b with
  | String c _ =>
      if Ascii.eqb c sep then b
      else if (String.length a =? 0) || ends_with_sep a then a +:+ b
      else a +:+ String sep b
  | EmptyString =>
      if (String.length a =? 0) || ends_with_sep a then a
      else a +:+ String sep EmptyString
  end.

(** [os.path.basename(p)]: what follows the last separator. *)
Fixpoint basename_from (p acc : string) : string :=
  match p with
  | EmptyString => acc
  | String c rest =>
      if Ascii.eqb c sep then basename_from rest EmptyString
      else basename_from rest (acc +:+ String c EmptyString)
  end.

Definition basename (p : string) : string := basename_from p EmptyString.

(** Truthiness of a [str] or a list. *)
Definition nonempty (s : string) : bool := negb (String.length s =? 0).

Definition newline : string := String (ascii_of_nat 10) EmptyString.

(** ** [BuildCore.build] of [acbs/main.py] *)

(** What [build] imports from the rest of the repository ([acbs.find],
    [acbs.parser], [acbs.deps.tarjan_search], [acbs.fetch],
    [acbs.utils]) and [time.monotonic].  Every helper may change the
    world and may raise.  The helpers that receive a task are taken not
    to rebind the attributes [build] reads afterwards. *)
Class BuildEnv (World : Type) : Type := {
  Graph : Type;
  find_package : string -> string -> World ->
                 outcome (list ACBSPackageInfo) * World;
  get_deps_graph : list ACBSPackageInfo -> World -> outcome Graph * World;
  tarjan_search : Graph -> string -> World ->
                  outcome (list (list ACBSPackageInfo)) * World;
  check_package_groups : list ACBSPackageInfo -> World ->
                         outcome unit * World;
  print_package_names : list ACBSPackageInfo -> option nat -> string;
  has_stamp : string -> World -> outcome bool * World;
  fetch_source : SourceInfo -> string -> string -> World ->
                 outcome unit * World;
  make_build_dir : string -> World -> outcome string * World;
  process_source : ACBSPackageInfo -> string -> World -> outcome unit * World;
  touch : string -> World -> outcome unit * World;
  guess_subdir : string -> World -> outcome string * World;
  invoke_autobuild : ACBSPackageInfo -> string -> World ->
                     outcome unit * World;
  monotonic : World -> outcome float * World;
  print_build_timings : list BuildTiming -> World -> outcome unit * World
}.

Module Main.

(** The attributes of [BuildCore] that [build] reads. *)
Record BuildCore : Type := mkBuildCore {
  no_deps : bool;
  dl_only : bool;
  build_queue : list string;
  tree_dir : string;
  dump_dir : string;
  tmp_dir : string
}.

Definition unresolved_error : exn :=
  RuntimeError "Dependencies NOT resolved. Couldn't continue!".

(** The error of line 155. *)
Definition build_failure (task_name build_dir : string) : exn :=
  RuntimeError ("Error when building " +:+ task_name +:+ "." +:+ newline
                +:+ "Build folder: " +:+ build_dir).

Section WithEnv.
Context {World : Type} `{BuildEnv World} `{Subprocess World}.

(** [logging.error('Found a loop in the dependency graph: {}'...)] *)
Definition loop_error (dep : list ACBSPackageInfo) : event :=
  Log ERROR "Found a loop in the dependency graph: {}"
      [AStr (print_package_names dep None)].

(** Lines 82-87: the lookup loop, with the list [packages] it extends. *)
Fixpoint find_packages (self : BuildCore) (queue : list string)
    (packages : list ACBSPackageInfo) : M World (list ACBSPackageInfo) :=
  match queue with
  | [] => ret packages
  | i :: rest =>
      logging DEBUG "Finding {}..." [AStr i] ;;;
      package <- external (FindPackage i) (find_package i (tree_dir self)) ;;
      match package with
      | [] => raise (RuntimeError ("Could not find package " +:+ i))
      | _ :: _ => find_packages self rest (packages ++ package)
      end
  end.

(** Lines 88-95 *)
Definition resolve (self : BuildCore) (packages : list ACBSPackageInfo)
  : M World (list (list ACBSPackageInfo)) :=
  if negb (no_deps self) then
    logging DEBUG "Converting queue into adjacency graph..." [] ;;;
    graph <- external (GetDepsGraph packages) (get_deps_graph packages) ;;
    logging DEBUG "Running Tarjan search..." [] ;;;
    external TarjanSearch (tarjan_search graph (tree_dir self))
  else
    logging WARNING "Warning: Dependency resolution disabled!" [] ;;;
    ret (map (fun package => [package]) packages).

(** Lines 100-107: the scan of the resolved components, with the flag
    [error] and the list [packages] it fills. *)
Fixpoint check_loops (resolved : list (list ACBSPackageInfo))
    (error : bool) (packages : list ACBSPackageInfo)
  : M World (bool * list ACBSPackageInfo) :=
  match resolved with
  | [] => ret (error, packages)
  | dep :: rest =>
      if 1 <? length dep then
        emit (loop_error dep) ;;;
        check_loops rest true packages
      else if negb error then check_loops rest error (packages ++ dep)
      else check_loops rest error packages
  end.

(** Lines 119-147 of the loop body: everything before the timed call.
    [None] is the [continue] of download-only mode; otherwise the task
    (with its build location assigned) and the directory to build in. *)
Definition prepare (self : BuildCore) (task : ACBSPackageInfo)
  : M World (option (ACBSPackageInfo * string)) :=
  logging INFO "Building {}..." [AStr (name task)] ;;;
  let source_name :=
    if nonempty (base_slug task) then basename (base_slug task)
    else name task in
  stamped <- external (HasStamp (build_location task))
                      (has_stamp (build_location task)) ;;
  (if negb stamped
   then external (FetchSource task source_name)
                 (fetch_source (source_uri task) (dump_dir self) source_name)
   else ret tt) ;;;
  if dl_only self then ret None
  else
    staged <-
      (if negb (nonempty (build_location task)) then
         build_dir <- external MakeBuildDir (make_build_dir (tmp_dir self)) ;;
         let task := set_build_location task build_dir in
         external (ProcessSource task source_name)
                  (process_source task source_name) ;;;
         ret (task, build_dir)
       else
         stamped <- external (HasStamp (build_location task))
                             (has_stamp (build_location task)) ;;
         (if negb stamped then
            external (ProcessSource task source_name)
                     (process_source task source_name) ;;;
            let stamp := path_join (build_location task) ".acbs-stamp" in
            external (TouchStamp stamp) (touch stamp)
          else ret tt) ;;;
         ret (task, build_location task)) ;;
    let task := fst staged in
    build_dir <-
      (if nonempty (subdir (source_uri task))
       then ret (path_join (snd staged) (subdir (source_uri task)))
       else
         guessed <- external (GuessSubdir (snd staged))
                             (guess_subdir (snd staged)) ;;
         if negb (nonempty guessed)
         then raise (RuntimeError
                "Could not determine sub-directory, please specify manually.")
         else ret (path_join (snd staged) guessed)) ;;
    (match installables task with
     | [] => ret tt
     | _ :: _ =>
         logging INFO "Installing dependencies from repository..." [] ;;;
         Pm.install_from_repo (installables task)
     end) ;;;
    ret (Some (task, build_dir)).

(** Lines 148-156: the timed call of the build tool. *)
Definition timed_autobuild (task : ACBSPackageInfo) (build_dir : string)
    (build_timings : list BuildTiming) : M World (list BuildTiming) :=
  start <- external Monotonic monotonic ;;
  try_except
    (external (InvokeAutobuild task build_dir)
              (invoke_autobuild task build_dir))
    any_exception
    (fun ex =>
       (match build_timings with
        | [] => ret tt
        | _ :: _ =>
            external (PrintBuildTimings build_timings)
                     (print_build_timings build_timings)
        end) ;;;
       raise (build_failure (name task) build_dir)) ;;;
  stop <- external Monotonic monotonic ;;
  ret (build_timings ++ [(name task, PrimFloat.sub stop start)]).

(** One iteration of [for task in packages], lines 118-156. *)
Definition build_task (self : BuildCore) (task : ACBSPackageInfo)
    (build_timings : list BuildTiming) : M World (list BuildTiming) :=
  prepared <- prepare self task ;;
  match prepared with
  | None => ret build_timings
  | Some (task, build_dir) => timed_autobuild task build_dir build_timings
  end.

Fixpoint build_loop (self : BuildCore) (packages : list ACBSPackageInfo)
    (build_timings : list BuildTiming) : M World (list BuildTiming) :=
  match packages with
  | [] => ret build_timings
  | task :: rest =>
      build_timings <- build_task self task build_timings ;;
      build_loop self rest build_timings
  end.

(** Lines 96-157: what [build] does with the resolved components. *)
Definition build_resolved (self : BuildCore)
    (resolved : list (list ACBSPackageInfo)) : M World unit :=
  emit (Print EmptyString) ;;;
  checked <- check_loops resolved false [] ;;
  let packages := snd checked in
  if fst checked : bool then raise unresolved_error
  else
    external (CheckPackageGroups packages) (check_package_groups packages) ;;;
    logging INFO "Dependencies resolved, {} packages in the queue"
            [ANat (length resolved)] ;;;
    logging DEBUG "Queue: {}" [APkgs packages] ;;;
    logging INFO "Packages to be built: {}"
            [AStr (print_package_names packages (Some 5))] ;;;
    build_timings <- build_loop self packages [] ;;
    external (PrintBuildTimings build_timings)
             (print_build_timings build_timings).

(** [BuildCore.build], lines 76-157 *)
Definition build (self : BuildCore) : M World unit :=
  logging INFO "Searching and resolving dependencies..." [] ;;;
  packages <- find_packages self (build_queue self) [] ;;
  resolved <- resolve self packages ;;
  build_resolved self resolved.

End WithEnv.
End Main.

(** ** [BuildCore.__init__] and [BuildCore.init] of [acbs/main.py] *)

(** What the start-up raises itself, and what it lets through. *)
Inductive init_error : Type :=
| IOError (msg : string)
| ValueError (msg : string)
| PlainException (msg : string)
| Propagated (e : exn).

(** What the start-up does to the outside. *)
Inductive init_event : Type :=
| SetExcepthook
| PrintBanner (line : string)
| IsDir (directory : string)
| MakeDirs (directory : string)
| InstallLogger (str_verbosity : level)
| PathExists (path : string)
| GetTreeByName (forest_file tree : string).

(** The constants of [acbs.const] and [acbs.__version__], the helpers of
    [acbs.utils] and [acbs.parser], and the calls of [os] that the
    start-up makes.  [install_logger] is the configuration of the
    [logging] library of lines 61-74, taken as one step. *)
Class InitEnv (World : Type) : Type := {
  CONF_DIR : string;
  DUMP_DIR : string;
  TMP_DIR : string;
  LOG_DIR : string;
  version : string;
  full_line_banner : string -> string;
  isdir : string -> World -> outcome bool * World;
  makedirs : string -> World -> outcome unit * World;
  install_logger : level -> World -> outcome unit * World;
  path_exists : string -> World -> outcome bool * World;
  get_tree_by_name : string -> string -> World -> outcome string * World
}.

(** The parsed command line, as [__init__] reads it. *)
Record Args : Type := mkArgs {
  arg_debug : bool;
  arg_no_deps : bool;
  arg_get : bool;
  arg_acbs_tree : string;
  arg_packages : list string
}.

Definition work_directories_error : init_error :=
  IOError (esc +:+ "[93mFailed to create work directories" +:+ esc +:+ "[0m!").

Module Init.
Section WithInitEnv.
Context {World : Type} `{InitEnv World}.

(** Lines 45-49: the loop over the work directories inside the [try];
    [false] when something in it raised. *)
Fixpoint make_work_directories (directories : list string) (w : World)
  : bool * World * list init_event :=
  match directories with
  | [] => (true, w, [])
  | directory :: rest =>
      match isdir directory w with
      | (Raise _, w1) => (false, w1, [IsDir directory])
      | (Ok true, w1) =>
          match make_work_directories rest w1 with
          | (ok, w2, t) => (ok, w2, IsDir directory :: t)
          end
      | (Ok false, w1) =>
          match makedirs directory w1 with
          | (Raise _, w2) => (false, w2, [IsDir directory; MakeDirs directory])
          | (Ok _, w2) =>
              match make_work_directories rest w2 with
              | (ok, w3, t) =>
                  (ok, w3, IsDir directory :: MakeDirs directory :: t)
              end
          end
      end
  end.

(** [self.tree = args.acbs_tree or 'default'] *)
Definition tree_of (args : Args) : string :=
  if nonempty (arg_acbs_tree args) then arg_acbs_tree args else "default".

(** Lines 53-59: the forest file and the tree. *)
Definition find_tree (tree : string) (w : World)
  : (init_error + string) * World * list init_event :=
  let forest_file := path_join CONF_DIR "forest.conf" in
  match path_exists forest_file w with
  | (Raise e, w1) => (inl (Propagated e), w1, [PathExists forest_file])
  | (Ok false, w1) =>
      (inl (PlainException "forest.conf not found"), w1,
       [PathExists forest_file])
  | (Ok true, w1) =>
      match get_tree_by_name forest_file tree w1 with
      | (Raise e, w2) =>
          (inl (Propagated e), w2,
           [PathExists forest_file; GetTreeByName forest_file tree])
      | (Ok tree_dir, w2) =>
          if nonempty tree_dir then
            (inr tree_dir, w2,
             [PathExists forest_file; GetTreeByName forest_file tree])
          else
            (inl (ValueError "Tree not found!"), w2,
             [PathExists forest_file; GetTreeByName forest_file tree])
      end
  end.

(** [BuildCore.init], lines 37-59, for the instance [__init__] has
    filled in; it returns the tree directory it has assigned. *)
Definition init (debug : bool) (tree : string) (w : World)
  : (init_error + string) * World * list init_event :=
  let opening :=
    [SetExcepthook;
     PrintBanner (full_line_banner ("Welcome to ACBS - " +:+ version))] in
  let log_verbosity := if debug then DEBUG else INFO in
  match make_work_directories [DUMP_DIR; TMP_DIR; CONF_DIR; LOG_DIR] w with
  | (false, w1, t1) => (inl work_directories_error, w1, opening ++ t1)
  | (true, w1, t1) =>
      match install_logger log_verbosity w1 with
      | (Raise e, w2) =>
          (inl (Propagated e), w2,
           opening ++ t1 ++ [InstallLogger log_verbosity])
      | (Ok _, w2) =>
          match find_tree tree w2 with
          | (r, w3, t3) =>
              (r, w3, opening ++ t1 ++ [InstallLogger log_verbosity] ++ t3)
          end
      end
  end.

(** [BuildCore.__init__], lines 23-35: the instance, when [init]
    returns. *)
Definition new (args : Args) (w : World)
  : (init_error + Main.BuildCore) * World * list init_event :=
  match init (arg_debug args) (tree_of args) w with
  | (inl err, w1, t) => (inl err, w1, t)
  | (inr tree_dir, w1, t) =>
      (inr (Main.mkBuildCore (arg_no_deps args) (arg_get args)
                             (arg_packages args) tree_dir DUMP_DIR TMP_DIR),
       w1, t)
  end.

End WithInitEnv.
End Init.

(** * Vocabulary of the properties *)

(** An attempt of [fix_pm_states] starts with the force-repair command:
    the attempts of a run are the repair commands of its trace. *)
Definition is_repair (ev : event) : bool :=
  match ev with
  | Call (Spawn command) => bool_decide (command = Pm.repair_command)
  | _ => false
  end.

Definition attempts (t : list event) : nat := length (List.filter is_repair t).

(** The roles of the dependencies, after the amended statement of the
    invariant: going through the dependencies in order, on the host as
    the queries before have left it, a name is dropped when [dpkg -s]
    exits with status 0 for it (installed), is an installable when
    [dpkg -s] exits non-zero and [apt-cache show] of the escaped name
    exits with status 0 (not installed, available), and stays a
    dependency when both exit non-zero (neither). *)
Inductive split_by_answers {World : Type} `{Subprocess World}
  : World -> list string -> list string -> list string -> list string ->
    World -> Prop :=
| split_done (w : World) : split_by_answers w [] [] [] [] w
| split_installed (w w1 w' : World) (dep : string)
    (todo dropped installables deps : list string) :
    spawn ["dpkg"; "-s"; dep] w = (Ok tt, w1) ->
    split_by_answers w1 todo dropped installables deps w' ->
    split_by_answers w (dep :: todo) (dep :: dropped) installables deps w'
| split_installable (w w1 w2 w' : World) (dep : string)
    (todo dropped installables deps : list string) :
    spawn ["dpkg"; "-s"; dep] w = (Raise CalledProcessError, w1) ->
    spawn ["apt-cache"; "show"; escape_package_name dep] w1 = (Ok tt, w2) ->
    split_by_answers w2 todo dropped installables deps w' ->
    split_by_answers w (dep :: todo) dropped (dep :: installables) deps w'
| split_neither (w w1 w2 w' : World) (dep : string)
    (todo dropped installables deps : list string) :
    spawn ["dpkg"; "-s"; dep] w = (Raise CalledProcessError, w1) ->
    spawn ["apt-cache"; "show"; escape_package_name dep] w1
    = (Raise CalledProcessError, w2) ->
    split_by_answers w2 todo dropped installables deps w' ->
    split_by_answers w (dep :: todo) dropped installables (dep :: deps) w'.

(** Marks in the trace of [process_deps]. *)
Definition is_invocation (ev : event) : bool :=
  match ev with
  | Log INFO fmt [] =>
      bool_decide (fmt = "Checking for dependencies, this may take a while...")
  | _ => false
  end.

Definition is_install (ev : event) : bool :=
  match ev with Call (InstallPkgs _) => true | _ => false end.

(** The warning of the [except] clause of lines 54-55: logged when, and
    only when, an installation has raised. *)
Definition is_install_failure (ev : event) : bool :=
  match ev with
  | Log WARNING fmt [] =>
      bool_decide (fmt = "An error occurred when installing dependencies")
  | _ => false
  end.

Definition is_exhaust (ev : event) : bool :=
  match ev with
  | Log WARNING fmt [] =>
      bool_decide
        (fmt = "Dependencies still didn't satisfy, entering exhaust mode...")
  | _ => false
  end.


Definition count (f : event -> bool) (t : list event) : nat :=
  length (List.filter f t).

(** The names [process_deps] searches for: the blank entries dropped. *)
Definition non_blank (pkgs : list string) : list string :=
  List.filter (fun i => negb (blank i)) pkgs.

Section DepsVocabulary.
Context {World : Type} `{PackageManager World}.

(** The slug is missing on the host and the repository has no binary
    package for it. *)
Definition no_binary (w : World) (pkg_slug : string) : Prop :=
  exists s, Deps.search_deps w [pkg_slug] = (None, Some s).

(** The slug is installed, or the repository has a binary package. *)
Definition has_binary (w : World) (pkg_slug : string) : Prop :=
  exists l, Deps.search_deps w [pkg_slug] = (Some l, None).

(** What one invocation of [process_deps] does up to its exit or its
    recursive call. *)
Inductive step : Type :=
| Done (r : outcome pyval) (w' : World) (t : list event)
| Retry (w' : World) (t : list event).

Definition invocation (self : Deps.Dependencies)
    (build_deps run_deps : list string) (pkg_slug : string) (w : World)
  : step :=
  match Deps.check_self_dependency w pkg_slug (build_deps ++ run_deps) [] with
  | (Raise e, t0) => Done (Raise e) w (Deps.prologue build_deps run_deps ++ t0)
  | (Ok search_pkgs, t0) =>
      let pre := Deps.prologue build_deps run_deps ++ t0 in
      let found := Deps.search_deps w search_pkgs in
      if decide (1 < Deps.retry self) then
        match truthy_set found.2 with
        | Some _ =>
            Done (Raise Deps.set_plus_list_error) w (pre ++ [Deps.msg_exhaust])
        | None =>
            Done (Ok (PyList (uniq (or_empty found.1)))) w
                 (pre ++ [Deps.msg_exhaust])
        end
      else
        match truthy_set found.2 with
        | Some s => Done (Ok (PySet s)) w (pre ++ [Deps.msg_in_tree s])
        | None =>
            match or_empty found.1 with
            | [] => Done (Ok PyNone) w (pre ++ [Deps.msg_all_met])
            | p :: ps =>
                let t1 := pre ++ [Deps.msg_will_install (p :: ps);
                                  Call (InstallPkgs (p :: ps))] in
                match install_pkgs (p :: ps) w with
                | (Ok _, w1) => Done (Ok PyNone) w1 t1
                | (Raise _, w1) =>
                    let t2 := t1 ++ [Deps.msg_install_error;
                                     Deps.msg_correcting; Call CorrectDeps] in
                    match correct_deps w1 with
                    | (Raise e, w2) => Done (Raise e) w2 t2
                    | (Ok _, w2) => Retry w2 t2
                    end
                end
            end
        end
  end.

(** The value line 59 leaves to its caller. *)
Definition dropped (r : outcome pyval) : outcome pyval :=
  match r with
  | Ok _ => Ok PyNone
  | Raise e => Raise e
  end.

End DepsVocabulary.

(** Marks in the trace of [build]. *)

(** A step of the per-package loop: stamps, fetching, staging, the
    installation of binary dependencies, the build tool. *)
Definition is_build_step (ev : event) : bool :=
  match ev with
  | Call (HasStamp _) | Call (FetchSource _ _) | Call MakeBuildDir
  | Call (ProcessSource _ _) | Call (TouchStamp _) | Call (GuessSubdir _)
  | Call (Spawn _) | Call (InvokeAutobuild _ _) => true
  | _ => false
  end.

(** Building the dependency graph, running the Tarjan search. *)
Definition is_graph_call (ev : event) : bool :=
  match ev with
  | Call (GetDepsGraph _) | Call TarjanSearch => true
  | _ => false
  end.

Definition is_autobuild (ev : event) : bool :=
  match ev with Call (InvokeAutobuild _ _) => true | _ => false end.

(** The timing reports a run has printed, oldest first. *)
Fixpoint reports (t : list event) : list (list BuildTiming) :=
  match t with
  | [] => []
  | Call (PrintBuildTimings timings) :: t' => timings :: reports t'
  | _ :: t' => reports t'
  end.

(** A component that is a loop: more than one package. *)
Definition is_loop (dep : list ACBSPackageInfo) : bool := 1 <? length dep.

(** The components in front of the first loop. *)
Fixpoint before_first_loop (resolved : list (list ACBSPackageInfo))
  : list (list ACBSPackageInfo) :=
  match resolved with
  | [] => []
  | dep :: rest =>
      if is_loop dep then [] else dep :: before_first_loop rest
  end.

(** Every event of every run of [m] satisfies [P]. *)
Definition emits {World A : Type} (P : event -> Prop) (m : M World A) : Prop :=
  forall w, Forall P (m w).2.

(** Reading an escaped name back: a backslash in front of a
    metacharacter is dropped, everything else is kept. *)
Fixpoint unescape (s : string) : string :=
  match s with
  | EmptyString => EmptyString
  | String c rest =>
      if Ascii.eqb c "\" then
        match rest with
        | String d rest' =>
            if is_metacharacter d then String d (unescape rest')
            else String c (unescape rest)
        | EmptyString => String c EmptyString
        end
      else String c (unescape rest)
  end.

Definition head_is_metacharacter (s : string) : bool :=
  match s with
  | EmptyString => false
  | String c _ => is_metacharacter c
  end.

Definition is_spawn (ev : event) : bool :=
  match ev with Call (Spawn _) => true | _ => false end.

(** The event is a log record, or one of the two [apt-get] commands for
    the given escaped names. *)
Definition apt_get_only (escaped : list string) (ev : event) : Prop :=
  match ev with
  | Log _ _ _ => True
  | Call (Spawn command) =>
      command = Pm.repair_command \/ command = Pm.install_command escaped
  | _ => False
  end.

(** The event is a log record, or a query of the host for one of the
    given names: [dpkg -s name] or [apt-cache show] of the escaped
    name. *)
Definition query_of (names : list string) (ev : event) : Prop :=
  match ev with
  | Log _ _ _ => True
  | Call (Spawn command) =>
      exists dep, dep ∈ names /\
        (command = ["dpkg"; "-s"; dep] \/
         command = ["apt-cache"; "show"; escape_package_name dep])
  | _ => False
  end.

(** With fixed answers of the host: the dependencies to install from the
    repository, and those left to build. *)
Definition to_install (is_installed is_available : string -> bool)
    (dep : string) : bool :=
  negb (is_installed dep) && is_available dep.

Definition to_build (is_installed is_available : string -> bool)
    (dep : string) : bool :=
  negb (is_installed dep) && negb (is_available dep).

(** Marks of the preparation of a task. *)
Definition is_guess (ev : event) : bool :=
  match ev with Call (GuessSubdir _) => true | _ => false end.

(** The event is a stamp check, a fetch or a log record: what
    download-only mode is allowed to do. *)
Definition download_step (ev : event) : bool :=
  match ev with
  | Log _ _ _ | Call (HasStamp _) | Call (FetchSource _ _) => true
  | _ => false
  end.

(** The driver's use of [apt-get] for a task: none without
    installables, otherwise the two commands for its escaped names. *)
Definition installs_for (task : ACBSPackageInfo) (ev : event) : Prop :=
  match ev with
  | Call (Spawn command) =>
      installables task <> [] /\
      (command = Pm.repair_command \/
       command
       = Pm.install_command (map escape_package_name (installables task)))
  | _ => True
  end.

(** Where the build happens: a directory is allocated only for a task
    that has no build location, the stamp is written only for a task
    that has one, into that location. *)
Definition location_rule (task : ACBSPackageInfo) (ev : event) : Prop :=
  match ev with
  | Call MakeBuildDir => nonempty (build_location task) = false
  | Call (TouchStamp path) =>
      nonempty (build_location task) = true /\
      path = path_join (build_location task) ".acbs-stamp"
  | _ => True
  end.

(** The task that leaves the staging step is the task that entered it,
    but for its build location. *)
Definition same_but_location (task staged : ACBSPackageInfo) : Prop :=
  staged = task \/ exists dir, staged = set_build_location task dir.

(** The directories a start-up has tested, and those it has created, in
    the order of the calls. *)
Fixpoint checked_directories (t : list init_event) : list string :=
  match t with
  | [] => []
  | IsDir directory :: t' => directory :: checked_directories t'
  | _ :: t' => checked_directories t'
  end.

Fixpoint made_directories (t : list init_event) : list string :=
  match t with
  | [] => []
  | MakeDirs directory :: t' => directory :: made_directories t'
  | _ :: t' => made_directories t'
  end.

(** The start-up has got as far as installing the logger, or as far as
    looking at the forest file. *)
Definition reached_logger (ev : init_event) : bool :=
  match ev with InstallLogger _ => true | _ => false end.

Definition reached_forest (ev : init_event) : bool :=
  match ev with PathExists _ | GetTreeByName _ _ => true | _ => false end.

Definition asked_for_tree (ev : init_event) : bool :=
  match ev with GetTreeByName _ _ => true | _ => false end.

(** * A simulated host

    A small concrete world on which the interfaces are implemented; the
    examples of the properties run on it. *)

Record SimHost : Type := mkSimHost {
  sim_installed : list string;
  sim_available : list string;
  (** how many of the next installations fail *)
  sim_failing_installs : nat;
  (** the packages whose build script fails *)
  sim_broken : list string;
  (** what the resolver returns *)
  sim_components : list (list ACBSPackageInfo)
}.

Definition sim_after_failure (h : SimHost) : SimHost :=
  mkSimHost (sim_installed h) (sim_available h)
            (pred (sim_failing_installs h)) (sim_broken h)
            (sim_components h).

Definition sim_after_install (h : SimHost) (pkgs : list string) : SimHost :=
  mkSimHost (sim_installed h ++ pkgs) (sim_available h)
            (sim_failing_installs h) (sim_broken h) (sim_components h).

Definition sim_install (fail_with : exn) (pkgs : list string) (h : SimHost)
  : outcome unit * SimHost :=
  match sim_failing_installs h with
  | O => (Ok tt, sim_after_install h pkgs)
  | S _ => (Raise fail_with, sim_after_failure h)
  end.

(** [dpkg -s], [apt-cache show] and [apt-get install] on the simulated
    host; an unknown program cannot be started. *)
Definition sim_spawn (command : list string) (h : SimHost)
  : outcome unit * SimHost :=
  match command with
  | ["dpkg"; "-s"; pkg] =>
      if bool_decide (pkg ∈ sim_installed h) then (Ok tt, h)
      else (Raise CalledProcessError, h)
  | ["apt-cache"; "show"; pattern] =>
      if bool_decide (pattern ∈ map escape_package_name (sim_available h))
      then (Ok tt, h)
      else (Raise CalledProcessError, h)
  | ["apt-get"; "install"; "-yf"] => (Ok tt, h)
  | "apt-get" :: "install" :: "-y" :: pkgs =>
      sim_install CalledProcessError pkgs h
  | _ => (Raise (OtherError "FileNotFoundError"), h)
  end.

Definition sim_subprocess : Subprocess SimHost :=
  {| spawn := sim_spawn |}.

Definition sim_package_manager : PackageManager SimHost :=
  {| query_current_miss_pkgs h pkgs :=
       List.filter (fun pkg => negb (bool_decide (pkg ∈ sim_installed h))) pkgs;
     query_online_pkgs h pkgs :=
       List.filter (fun pkg => bool_decide (pkg ∈ sim_available h)) pkgs;
     install_pkgs pkgs h := sim_install (OtherError "install") pkgs h;
     correct_deps h := (Ok tt, h);
     correct_deps_raises := ltac:(discriminate) |}.

(** A package of the simulated tree: its sources unpack into [src]. *)
Definition sim_package (slug : string) (installable : list string)
  : ACBSPackageInfo :=
  mkPackage slug [] installable EmptyString EmptyString
            (mkSourceInfo ("https://example.org/" +:+ slug) "src").

Definition sim_build_env : BuildEnv SimHost :=
  {| Graph := list ACBSPackageInfo;
     find_package i _ h := (Ok [sim_package i []], h);
     get_deps_graph packages h := (Ok packages, h);
     tarjan_search _ _ h := (Ok (sim_components h), h);
     check_package_groups _ h := (Ok tt, h);
     print_package_names packages _ :=
       foldr (fun p acc => name p +:+ " " +:+ acc) EmptyString packages;
     has_stamp _ h := (Ok false, h);
     fetch_source _ _ _ h := (Ok tt, h);
     make_build_dir tmp h := (Ok (path_join tmp "acbs.0"), h);
     process_source _ _ h := (Ok tt, h);
     touch _ h := (Ok tt, h);
     guess_subdir _ h := (Ok EmptyString, h);
     invoke_autobuild task _ h :=
       if bool_decide (name task ∈ sim_broken h)
       then (Raise (OtherError "autobuild"), h)
       else (Ok tt, h);
     monotonic h := (Ok PrimFloat.zero, h);
     print_build_timings _ h := (Ok tt, h) |}.

(** Five packages are requested in a tree where [third] does not
    build. *)
Definition five_packages : list string :=
  ["first"; "second"; "third"; "fourth"; "fifth"].

Definition broken_third : SimHost := mkSimHost [] [] 0 ["third"] [].

Definition sim_core (no_deps : bool) (queue : list string) : Main.BuildCore :=
  Main.mkBuildCore no_deps false queue "/usr/lib/acbs/repo"
                   "/var/cache/acbs/tarballs" "/var/cache/acbs/build".

(** A resolution with two loops: [b] and [c] depend on each other, and
    so do [e] and [f]. *)
Definition looping_components : list (list ACBSPackageInfo) :=
  [[sim_package "a" []];
   [sim_package "b" []; sim_package "c" []];
   [sim_package "d" []];
   [sim_package "e" []; sim_package "f" []]].

Definition looping_host : SimHost :=
  mkSimHost [] [] 0 [] looping_components.

(** The host of the examples: [zlib] is not installed but can be
    installed from the repository, [libfoo] has to be built. *)
Definition host_with_zlib : SimHost := mkSimHost [] ["zlib"] 0 [] [].

Definition needs_zlib : ACBSPackageInfo :=
  mkPackage "demo" ["zlib"; "libfoo"] [] EmptyString EmptyString
            (mkSourceInfo "https://example.org/demo" EmptyString).

(** [zlib] can be installed from the repository, but the next two
    installations fail. *)
Definition flaky_host : SimHost := mkSimHost [] ["zlib"] 2 [] [].
Definition settled_host : SimHost := mkSimHost [] ["zlib"] 0 [] [].

(** The tree of the simulated host with some packages missing: the
    lookup finds nothing for them. *)
Definition sim_tree_without (missing : list string) : BuildEnv SimHost :=
  {| Graph := list ACBSPackageInfo;
     find_package i _ h :=
       (Ok (if bool_decide (i ∈ missing) then [] else [sim_package i []]), h);
     get_deps_graph packages h := (Ok packages, h);
     tarjan_search _ _ h := (Ok (sim_components h), h);
     check_package_groups _ h := (Ok tt, h);
     print_package_names packages _ :=
       foldr (fun p acc => name p +:+ " " +:+ acc) EmptyString packages;
     has_stamp _ h := (Ok false, h);
     fetch_source _ _ _ h := (Ok tt, h);
     make_build_dir tmp h := (Ok (path_join tmp "acbs.0"), h);
     process_source _ _ h := (Ok tt, h);
     touch _ h := (Ok tt, h);
     guess_subdir _ h := (Ok EmptyString, h);
     invoke_autobuild task _ h :=
       if bool_decide (name task ∈ sim_broken h)
       then (Raise (OtherError "autobuild"), h)
       else (Ok tt, h);
     monotonic h := (Ok PrimFloat.zero, h);
     print_build_timings _ h := (Ok tt, h) |}.

(** The answers of the simulated host to [dpkg -s] and to
    [apt-cache show]. *)
Definition sim_is_installed (h : SimHost) (pkg : string) : bool :=
  bool_decide (pkg ∈ sim_installed h).

Definition sim_is_available (h : SimHost) (pkg : string) : bool :=
  bool_decide (escape_package_name pkg
               ∈ map escape_package_name (sim_available h)).

(** A driver in download-only mode. *)
Definition sim_download_core (queue : list string) : Main.BuildCore :=
  Main.mkBuildCore true true queue "/usr/lib/acbs/repo"
                   "/var/cache/acbs/tarballs" "/var/cache/acbs/build".

(** A resolution without loops, with an empty component. *)
Definition acyclic_components : list (list ACBSPackageInfo) :=
  [[sim_package "a" []]; []; [sim_package "b" []]].

(** A package manager whose state correction gives up. *)
Definition sim_stuck_package_manager : PackageManager SimHost :=
  {| query_current_miss_pkgs h pkgs :=
       List.filter (fun pkg => negb (bool_decide (pkg ∈ sim_installed h))) pkgs;
     query_online_pkgs h pkgs :=
       List.filter (fun pkg => bool_decide (pkg ∈ sim_available h)) pkgs;
     install_pkgs pkgs h := sim_install (OtherError "install") pkgs h;
     correct_deps h := (Raise unable_to_correct, h);
     correct_deps_raises :=
       ltac:(intros w e w' [= <- _]; discriminate) |}.

(** Names made of white space that is not ASCII: NO-BREAK SPACE and
    NEXT LINE. *)
Definition no_break_space : string := String (ascii_of_nat 160) EmptyString.
Definition next_line : string := String (ascii_of_nat 133) EmptyString.

(** A host without packages and without a repository. *)
Definition empty_host : SimHost := mkSimHost [] [] 0 [] [].

(** * Properties *)

(** ** Running sequenced computations *)

Section MonadFacts.
Context {World A B : Type}.
Implicit Types (m : M World A) (k : A -> M World B) (w : World).

Lemma bind_Ok_inv m k w b w' t :
  bind m k w = (Ok b, w', t) ->
  exists a w1 t1 t2,
    m w = (Ok a, w1, t1) /\ k a w1 = (Ok b, w', t2) /\ t = t1 ++ t2.
Proof.
  unfold bind. destruct (m w) as [[[a|e] w1] t1]; [|discriminate].
  destruct (k a w1) as [[r w2] t2] eqn:Hk.
  intros [= -> -> <-]. now exists a, w1, t1, t2.
Qed.

Lemma external_Ok_inv (c : call) (f : World -> outcome A * World) w a w1 t :
  external c f w = (Ok a, w1, t) -> f w = (Ok a, w1) /\ t = [Call c].
Proof.
  unfold external. destruct (f w) as [r w']. now intros [= -> -> <-].
Qed.

Lemma bind_Ok m k w a w1 t1 :
  m w = (Ok a, w1, t1) ->
  bind m k w = match k a w1 with (r, w2, t2) => (r, w2, t1 ++ t2) end.
Proof. unfold bind. now intros ->. Qed.

End MonadFacts.

(** ** What a computation emits *)

Section EmitsFacts.
Context {World : Type} (P : event -> Prop).

Lemma emits_ret {A} (a : A) : emits P (ret (World := World) a).
Proof. intros w. constructor. Qed.

Lemma emits_raise {A} (e : exn) : emits P (raise (World := World) (A := A) e).
Proof. intros w. constructor. Qed.

Lemma emits_emit (ev : event) : P ev -> emits P (emit (World := World) ev).
Proof. intros Hev w. repeat constructor. exact Hev. Qed.

Lemma emits_logging (lvl : level) (fmt : string) (args : list fmt_arg) :
  P (Log lvl fmt args) -> emits P (logging (World := World) lvl fmt args).
Proof. apply emits_emit. Qed.

Lemma emits_external {A} (c : call) (f : World -> outcome A * World) :
  P (Call c) -> emits P (external c f).
Proof.
  intros Hc w. unfold external. destruct (f w) as [r w1].
  repeat constructor. exact Hc.
Qed.

Lemma emits_bind {A B} (m : M World A) (k : A -> M World B) :
  emits P m -> (forall a, emits P (k a)) -> emits P (bind m k).
Proof.
  intros Hm Hk w. unfold bind. specialize (Hm w).
  destruct (m w) as [[[a|e] w1] t1]; [|exact Hm].
  specialize (Hk a w1). destruct (k a w1) as [[r w2] t2].
  apply Forall_app. split; assumption.
Qed.

Lemma emits_try_except {A} (m : M World A) (handles : exn -> bool)
    (handler : exn -> M World A) :
  emits P m -> (forall e, emits P (handler e)) ->
  emits P (try_except m handles handler).
Proof.
  intros Hm Hh w. unfold try_except. specialize (Hm w).
  destruct (m w) as [[[a|e] w1] t1]; [exact Hm|].
  destruct (handles e); [|exact Hm].
  specialize (Hh e w1). destruct (handler e w1) as [[r w2] t2].
  apply Forall_app. split; assumption.
Qed.

End EmitsFacts.

(** Goals [emits P m] for loop-free code: split at every [bind] and
    every branch, decide the event of every leaf by computation or from
    the hypotheses. *)
Ltac emits_leaf := first [ reflexivity | solve [auto] ].

Ltac emits_step :=
  first
    [ apply emits_ret
    | apply emits_raise
    | apply emits_logging; emits_leaf
    | apply emits_emit; emits_leaf
    | apply emits_external; emits_leaf
    | apply emits_bind; [|intros ?]
    | apply emits_try_except; [|intros ?]
    | match goal with
      | |- emits _ (if ?b then _ else _) => destruct b
      | |- emits _ (match ?x with _ => _ end) => destruct x
      end ].



(** ** Name escaping *)

Lemma is_metacharacter_iff (c : ascii) :
  is_metacharacter c = true <-> c = "+"%char \/ c = "*"%char \/ c = "?"%char.
Proof.
  unfold is_metacharacter, Re.in_class, metacharacters. simpl.
  rewrite !orb_true_iff, !Ascii.eqb_eq. intuition discriminate.
Qed.

Lemma expand_replacement (c : ascii) :
  Re.expand replacement (String c EmptyString)
  = String "\" (String c EmptyString).
Proof. reflexivity. Qed.

Lemma escape_package_name_cons (c : ascii) (s : string) :
  escape_package_name (String c s)
  = if is_metacharacter c
    then String "\" (String c (escape_package_name s))
    else String c (escape_package_name s).
Proof.
  unfold escape_package_name, is_metacharacter. cbn [Re.sub].
  destruct (Re.in_class metacharacters c); [|reflexivity].
  rewrite expand_replacement. reflexivity.
Qed.

Lemma escape_backslash_prefixed (s : string) :
  escape_package_name s = backslash_prefixed s.
Proof.
  induction s as [|c s IH]; [reflexivity|].
  rewrite escape_package_name_cons. simpl. now rewrite IH.
Qed.

Lemma backslash_prefixed_length (s : string) :
  String.length (backslash_prefixed s)
  = String.length s + count_metacharacters s.
Proof.
  induction s as [|c s IH]; [reflexivity|].
  simpl. destruct (is_metacharacter c); simpl; lia.
Qed.

Lemma backslash_prefixed_plain (s : string) :
  no_metacharacter s = true -> backslash_prefixed s = s.
Proof.
  induction s as [|c s IH]; [reflexivity|].
  simpl. destruct (is_metacharacter c); simpl; [discriminate|].
  intros Hs. now rewrite IH.
Qed.

(** C9: [escape_package_name] puts exactly one backslash in front of
    every [+], [*] and [?] and copies every other character: it maps
    [gcc+] to [gcc\+] and [lib?] to [lib\?], it agrees with the
    character-by-character reading of the design document, it
    lengthens the name by the number of metacharacters, and it returns
    a name without metacharacters unchanged. *)
Theorem escape_package_name_spec (name : string) :
  escape_package_name "gcc+" = "gcc\+" /\
  escape_package_name "lib?" = "lib\?" /\
  escape_package_name name = backslash_prefixed name /\
  String.length (escape_package_name name)
    = String.length name + count_metacharacters name /\
  (no_metacharacter name = true -> escape_package_name name = name).
Proof.
  split; [reflexivity|]. split; [reflexivity|].
  split; [apply escape_backslash_prefixed|].
  rewrite escape_backslash_prefixed.
  split; [apply backslash_prefixed_length|apply backslash_prefixed_plain].
Qed.

Lemma escape_package_name_spec_witness :
  no_metacharacter "zlib1g-dev" = true /\
  escape_package_name "zlib1g-dev" = "zlib1g-dev".
Proof.
  split; [reflexivity|].
  apply (proj2 (proj2 (proj2 (proj2 (escape_package_name_spec "zlib1g-dev"))))).
  reflexivity.
Defined.

(** ** The host package-manager bridge *)

Section PmFacts.
Context {World : Type} `{Subprocess World}.

Lemma attempts_app (t1 t2 : list event) :
  attempts (t1 ++ t2) = attempts t1 + attempts t2.
Proof. unfold attempts. now rewrite List.filter_app, length_app. Qed.

(** One run of the [try] body is one attempt, whatever its outcome. *)
Lemma repair_and_install_attempts (escaped : list string) (w : World) :
  attempts (Pm.repair_and_install escaped w).2 = 1.
Proof.
  unfold Pm.repair_and_install, Pm.check_call, bind, external.
  destruct (spawn Pm.repair_command w) as [[[]|e] w1]; [|reflexivity].
  destruct (spawn _ w1) as [r w2]. simpl.
  reflexivity.
Qed.

(** The loop entered with [count >= 3] raises at once. *)
Lemma fix_pm_states_from_exhausted (escaped : list string) (count : nat)
    (w : World) :
  3 <= count ->
  Pm.fix_pm_states_from escaped count w = (Raise unable_to_correct, w, []).
Proof.
  intros Hc. simp fix_pm_states_from.
  destruct (lt_dec count 3) as [Hlt|Hge]; [lia|]. reflexivity.
Qed.

(** One turn of the loop. *)
Lemma fix_pm_states_from_step (escaped : list string) (count : nat)
    (w : World) :
  count < 3 ->
  Pm.fix_pm_states_from escaped count w =
    match Pm.repair_and_install escaped w with
    | (Ok _, w1, t1) => (Ok tt, w1, t1)
    | (Raise _, w1, t1) =>
        match Pm.fix_pm_states_from escaped (S count) w1 with
        | (r, w2, t2) => (r, w2, t1 ++ t2)
        end
    end.
Proof.
  intros Hc. simp fix_pm_states_from.
  destruct (lt_dec count 3) as [Hlt|Hge]; [|lia]. simpl.
  destruct (Pm.repair_and_install escaped w) as [[[u|e] w1] t1];
    reflexivity.
Qed.

(** The [try] body in terms of the commands it starts: the repair
    command, and when that returns, the installation of the escaped
    names, whose outcome is the outcome of the body. *)
Lemma repair_and_install_commands (escaped : list string) (w : World) :
  Pm.repair_and_install escaped w =
    match spawn ["apt-get"; "install"; "-yf"] w with
    | (Raise e, w1) =>
        (Raise e, w1, [Call (Spawn ["apt-get"; "install"; "-yf"])])
    | (Ok _, w1) =>
        match spawn (["apt-get"; "install"; "-y"] ++ escaped) w1 with
        | (r, w2) =>
            (r, w2,
             [Call (Spawn ["apt-get"; "install"; "-yf"]);
              Call (Spawn (["apt-get"; "install"; "-y"] ++ escaped))])
        end
    end.
Proof.
  unfold Pm.repair_and_install, Pm.check_call, Pm.repair_command,
    Pm.install_command, bind, external.
  destruct (spawn ["apt-get"; "install"; "-yf"] w) as [[[]|e] w1];
    [|reflexivity].
  destruct (spawn _ w1) as [r w2]. reflexivity.
Qed.

(** C5: an attempt of [fix_pm_states] starts [apt-get install -yf] and,
    when that command returns, [apt-get install -y] with the escaped
    names; it succeeds when both commands return, and fails when either
    raises (the installation is not started after a failed repair).
    [fix_pm_states] is three such attempts in a row, each on the host as
    the one before left it: it returns with the first attempt that
    succeeds and starts no command after it; it raises the
    unable-to-correct error exactly when three attempts have failed; it
    never runs a fourth. *)
Theorem fix_pm_states_three_attempts (escaped : list string) (w : World) :
  let repair := ["apt-get"; "install"; "-yf"] in
  let install := ["apt-get"; "install"; "-y"] ++ escaped in
  let attempt (w0 : World) : outcome unit * World * list event :=
    match spawn repair w0 with
    | (Raise e, w1) => (Raise e, w1, [Call (Spawn repair)])
    | (Ok _, w1) =>
        match spawn install w1 with
        | (r, w2) => (r, w2, [Call (Spawn repair); Call (Spawn install)])
        end
    end in
  Pm.fix_pm_states escaped w =
    match attempt w with
    | (Ok _, w1, t1) => (Ok tt, w1, t1)
    | (Raise _, w1, t1) =>
        match attempt w1 with
        | (Ok _, w2, t2) => (Ok tt, w2, t1 ++ t2)
        | (Raise _, w2, t2) =>
            match attempt w2 with
            | (Ok _, w3, t3) => (Ok tt, w3, t1 ++ t2 ++ t3)
            | (Raise _, w3, t3) =>
                (Raise unable_to_correct, w3, t1 ++ t2 ++ t3)
            end
        end
    end
  /\ match Pm.fix_pm_states escaped w with
     | (Ok _, _, t) => 1 <= attempts t <= 3
     | (Raise e, _, t) => e = unable_to_correct /\ attempts t = 3
     end.
Proof.
  intros repair install attempt.
  assert (Hattempt : forall w0, Pm.repair_and_install escaped w0 = attempt w0)
    by (intros w0; apply repair_and_install_commands).
  assert (Hrun :
    Pm.fix_pm_states escaped w =
    match attempt w with
    | (Ok _, w1, t1) => (Ok tt, w1, t1)
    | (Raise _, w1, t1) =>
        match attempt w1 with
        | (Ok _, w2, t2) => (Ok tt, w2, t1 ++ t2)
        | (Raise _, w2, t2) =>
            match attempt w2 with
            | (Ok _, w3, t3) => (Ok tt, w3, t1 ++ t2 ++ t3)
            | (Raise _, w3, t3) =>
                (Raise unable_to_correct, w3, t1 ++ t2 ++ t3)
            end
        end
    end).
  { unfold Pm.fix_pm_states.
    rewrite fix_pm_states_from_step by lia. rewrite Hattempt.
    destruct (attempt w) as [[[u1|e1] w1] t1]; [reflexivity|].
    rewrite fix_pm_states_from_step by lia. rewrite Hattempt.
    destruct (attempt w1) as [[[u2|e2] w2] t2]; [reflexivity|].
    rewrite fix_pm_states_from_step by lia. rewrite Hattempt.
    destruct (attempt w2) as [[[u3|e3] w3] t3]; [reflexivity|].
    rewrite fix_pm_states_from_exhausted by lia.
    now rewrite app_nil_r. }
  split; [exact Hrun|]. rewrite Hrun. clear Hrun.
  pose proof (repair_and_install_attempts escaped w) as A1.
  rewrite Hattempt in A1.
  destruct (attempt w) as [[[u1|e1] w1] t1];
    simpl in A1; [lia|].
  pose proof (repair_and_install_attempts escaped w1) as A2.
  rewrite Hattempt in A2.
  destruct (attempt w1) as [[[u2|e2] w2] t2];
    simpl in A2; [rewrite attempts_app; lia|].
  pose proof (repair_and_install_attempts escaped w2) as A3.
  rewrite Hattempt in A3.
  destruct (attempt w2) as [[[u3|e3] w3] t3];
    simpl in A3; rewrite !attempts_app; [lia|].
  split; [reflexivity|lia].
Qed.

(** What the bridge emits: log records and commands. *)
Lemma fix_pm_states_from_emits (P : event -> Prop) (escaped : list string) :
  (forall command, P (Call (Spawn command))) ->
  forall count, emits P (Pm.fix_pm_states_from escaped count).
Proof.
  intros Hspawn count. remember (3 - count) as n eqn:Hn.
  revert count Hn. induction n as [|n IH]; intros count Hn w.
  - rewrite fix_pm_states_from_exhausted by lia. constructor.
  - rewrite fix_pm_states_from_step by lia.
    assert (Hatt : emits P (Pm.repair_and_install escaped)).
    { unfold Pm.repair_and_install, Pm.check_call. repeat emits_step. }
    specialize (Hatt w).
    destruct (Pm.repair_and_install escaped w) as [[[u|e] w1] t1];
      [exact Hatt|].
    specialize (IH (S count) ltac:(lia) w1).
    destruct (Pm.fix_pm_states_from escaped (S count) w1) as [[r w2] t2].
    apply Forall_app. split; assumption.
Qed.

Lemma install_from_repo_emits (P : event -> Prop) (packages : list string) :
  (forall command, P (Call (Spawn command))) ->
  (forall lvl fmt args, P (Log lvl fmt args)) ->
  emits P (Pm.install_from_repo packages).
Proof.
  intros Hspawn Hlog.
  unfold Pm.install_from_repo, Pm.fix_pm_states, Pm.check_call.
  repeat emits_step. now apply fix_pm_states_from_emits.
Qed.

End PmFacts.

(** ** Filtering the dependencies against the host *)

Section FilterFacts.
Context {World : Type} `{Subprocess World}.

(** Every name the loop takes from [todo] lands in exactly one of three
    places: dropped (installed), [installables] or [deps]. *)
Lemma filter_loop_partition (todo : list string) :
  forall (installables deps : list string) (w : World) r w' t,
    Pm.filter_loop todo installables deps w = (Ok r, w', t) ->
    exists dropped,
      todo ++ installables ++ deps ≡ₚ dropped ++ r.1 ++ r.2.
Proof.
  induction todo as [|dep todo IH]; intros ins ds w r w' t.
  - intros [= <- _ _]. now exists [].
  - cbn [Pm.filter_loop].
    intros (installed & w1 & t1 & t2 & _ & Hk & _)%bind_Ok_inv.
    destruct installed.
    + apply IH in Hk as [dropped Hp]. exists (dep :: dropped).
      simpl. now rewrite Hp.
    + apply bind_Ok_inv in Hk as (available & w2 & t3 & t4 & _ & Hk & _).
      destruct available; apply IH in Hk as [dropped Hp];
        exists dropped; rewrite <- Hp; simpl; solve_Permutation.
Qed.

(** The answer of a query is the exit status of its command. *)
Lemma query_answer (fmt : string) (command : list string) (name : string)
    (w w1 : World) (answer : bool) (t : list event) :
  (logging DEBUG fmt [AStr name] ;;;
   try_except (Pm.check_output command ;;; ret true)
              is_CalledProcessError (fun _ => ret false))%acbs w
  = (Ok answer, w1, t) ->
  spawn command w
  = (if answer then Ok tt else Raise CalledProcessError, w1).
Proof.
  unfold bind, logging, emit, try_except, Pm.check_output, external, ret.
  destruct (spawn command w) as [[[]|e] w0]; simpl.
  - intros [= <- <- _]. reflexivity.
  - destruct e; simpl; try discriminate.
    intros [= <- <- _]. reflexivity.
Qed.

Lemma check_if_installed_answer (name : string) (w w1 : World)
    (answer : bool) (t : list event) :
  Pm.check_if_installed name w = (Ok answer, w1, t) ->
  spawn ["dpkg"; "-s"; name] w
  = (if answer then Ok tt else Raise CalledProcessError, w1).
Proof. apply query_answer. Qed.

Lemma check_if_available_answer (name : string) (w w1 : World)
    (answer : bool) (t : list event) :
  Pm.check_if_available name w = (Ok answer, w1, t) ->
  spawn ["apt-cache"; "show"; escape_package_name name] w
  = (if answer then Ok tt else Raise CalledProcessError, w1).
Proof. apply query_answer. Qed.

(** The loop appends to its accumulators what the answers of the host
    assign to them. *)
Lemma filter_loop_split (todo : list string) :
  forall (installables deps : list string) (w : World) r w' t,
    Pm.filter_loop todo installables deps w = (Ok r, w', t) ->
    exists dropped installables' deps',
      r = (installables ++ installables', deps ++ deps') /\
      split_by_answers w todo dropped installables' deps' w'.
Proof.
  induction todo as [|dep todo IH]; intros ins ds w r w' t.
  - intros [= <- <- _]. exists [], [], [].
    rewrite !app_nil_r. split; [reflexivity|constructor].
  - cbn [Pm.filter_loop].
    intros (installed & w1 & t1 & t2 & Hq1 & Hk & _)%bind_Ok_inv.
    apply check_if_installed_answer in Hq1.
    destruct installed.
    + apply IH in Hk as (dropped & ins' & ds' & -> & Hsplit).
      exists (dep :: dropped), ins', ds'.
      split; [reflexivity|]. eapply split_installed; eassumption.
    + apply bind_Ok_inv in Hk as (available & w2 & t3 & t4 & Hq2 & Hk & _).
      apply check_if_available_answer in Hq2.
      destruct available;
        apply IH in Hk as (dropped & ins' & ds' & -> & Hsplit).
      * exists dropped, (dep :: ins'), ds'.
        rewrite <- app_assoc. split; [reflexivity|].
        eapply split_installable; eassumption.
      * exists dropped, ins', (dep :: ds').
        rewrite <- (app_assoc ds). split; [reflexivity|].
        eapply split_neither; eassumption.
Qed.

(** C2, as the code has it: [filter_dependencies] goes through the
    [deps] the task had and splits them by the answers of the host:
    the names it drops are those for which [dpkg -s] exits with status
    0 (installed), [installables] those for which [dpkg -s] fails and
    [apt-cache show] of the escaped name exits with status 0, the new
    [deps] those for which both fail, each list in the order of the old
    [deps]; nothing else of the task changes.  So both resulting lists
    come from the old [deps], and no name of a duplicate-free [deps] is
    in both. *)
Theorem filter_dependencies_partition (package : ACBSPackageInfo)
    (w : World) (package' : ACBSPackageInfo) (w' : World) (t : list event) :
  Pm.filter_dependencies package w = (Ok package', w', t) ->
  (exists dropped,
     split_by_answers w (deps package) dropped
                      (installables package') (deps package') w' /\
     deps package ≡ₚ dropped ++ installables package' ++ deps package') /\
  package' = set_deps package (deps package') (installables package') /\
  installables package' ⊆ deps package /\
  deps package' ⊆ deps package /\
  (NoDup (deps package) ->
   forall dep, dep ∈ installables package' -> dep ∉ deps package').
Proof.
  unfold Pm.filter_dependencies.
  intros (r & w1 & t1 & t2 & Hloop & Hret & _)%bind_Ok_inv.
  injection Hret as <- <- _. simpl.
  pose proof Hloop as (dropped' & ins' & ds' & Hr & Hsplit)%filter_loop_split.
  apply filter_loop_partition in Hloop as [dropped Hp].
  rewrite !app_nil_r in Hp. subst r. simpl in *.
  assert (Hp' : deps package ≡ₚ dropped' ++ ins' ++ ds').
  { clear -Hsplit. induction Hsplit; simpl.
    - reflexivity.
    - now constructor.
    - rewrite IHHsplit. solve_Permutation.
    - rewrite IHHsplit. solve_Permutation. }
  split; [exists dropped'; split; assumption|].
  split; [reflexivity|].
  split; [|split].
  - intros x Hx. rewrite Hp. set_solver.
  - intros x Hx. rewrite Hp. set_solver.
  - intros Hnd dep Hi Hd. rewrite Hp in Hnd.
    apply NoDup_app in Hnd as (_ & _ & Hnd).
    apply NoDup_app in Hnd as (_ & Hdisj & _).
    exact (Hdisj dep Hi Hd).
Qed.

End FilterFacts.

(** C2, as stated, fails: after [filter_dependencies] the installable
    [zlib] is in [installables] and no longer in [deps]. *)
Lemma filter_dependencies_not_subset :
  exists package' w' t,
    Pm.filter_dependencies (H := sim_subprocess) needs_zlib host_with_zlib
      = (Ok package', w', t) /\
    installables package' = ["zlib"] /\
    deps package' = ["libfoo"] /\
    ~ installables package' ⊆ deps package'.
Proof.
  eexists _, _, _. split; [vm_compute; reflexivity|].
  split; [reflexivity|]. split; [reflexivity|].
  simpl. intros Hsub.
  specialize (Hsub "zlib" ltac:(set_solver)).
  apply list_elem_of_singleton in Hsub. discriminate.
Qed.

(** On the host of the example nothing is installed, [zlib] is
    available and [libfoo] is not: nothing is dropped. *)
Lemma filter_dependencies_partition_witness :
  (exists dropped,
     split_by_answers (H := sim_subprocess) host_with_zlib
       (deps needs_zlib) dropped ["zlib"] ["libfoo"] host_with_zlib /\
     deps needs_zlib ≡ₚ dropped ++ ["zlib"] ++ ["libfoo"]) /\
  set_deps needs_zlib ["libfoo"] ["zlib"]
  = set_deps needs_zlib ["libfoo"] ["zlib"] /\
  ["zlib"] ⊆ deps needs_zlib /\
  ["libfoo"] ⊆ deps needs_zlib /\
  (NoDup (deps needs_zlib) ->
   forall dep, dep ∈ ["zlib"] -> dep ∉ ["libfoo"]).
Proof.
  exact (filter_dependencies_partition (H := sim_subprocess)
           needs_zlib host_with_zlib
           (set_deps needs_zlib ["libfoo"] ["zlib"]) host_with_zlib _
           ltac:(vm_compute; reflexivity)).
Defined.

(** ** The dependency coordinator *)

(** *** Counting marks in traces *)

Lemma count_app (f : event -> bool) (t1 t2 : list event) :
  count f (t1 ++ t2) = count f t1 + count f t2.
Proof. unfold count. now rewrite List.filter_app, length_app. Qed.

Lemma count_cons (f : event -> bool) (ev : event) (t : list event) :
  count f (ev :: t) = (if f ev then 1 else 0) + count f t.
Proof. unfold count. simpl. now destruct (f ev). Qed.

Lemma count_nil (f : event -> bool) : count f [] = 0.
Proof. reflexivity. Qed.

Lemma count_replicate_other (f : event -> bool) (n : nat) (ev : event) :
  f ev = false -> count f (replicate n ev) = 0.
Proof.
  intros Hf. unfold count. induction n as [|n IH]; [reflexivity|].
  simpl. now rewrite Hf.
Qed.

Lemma count_replicate_same (f : event -> bool) (n : nat) (ev : event) :
  f ev = true -> count f (replicate n ev) = n.
Proof.
  intros Hf. unfold count. induction n as [|n IH]; [reflexivity|].
  simpl. rewrite Hf. simpl. now rewrite IH.
Qed.

(** Traces that differ by the bracketing of [++] only. *)
Ltac trace_eq :=
  repeat rewrite <- app_assoc; simpl; repeat rewrite <- app_assoc;
  reflexivity.

(** Counting the marks of a trace built from known events, checker
    traces and sub-traces. *)
Ltac count_trace :=
  repeat first
    [ rewrite count_app
    | rewrite count_cons
    | rewrite count_nil
    | rewrite count_replicate_other by reflexivity
    | rewrite count_replicate_same by reflexivity ];
  simpl.

(** The facts about an exit, once the marks are counted. *)
Ltac exit_facts :=
  repeat match goal with
         | |- _ /\ _ => split
         | |- _ -> _ => intros ?
         end;
  first [ reflexivity | lia | discriminate
        | left; split; reflexivity
        | right; split; [reflexivity|discriminate] ].

Section DepsFacts.
Context {World : Type} `{PackageManager World}.

(** *** The self-dependency check *)

Lemma search_deps_cases (w : World) (pkgs : list string) :
  (exists l, Deps.search_deps w pkgs = (Some l, None)) \/
  (exists s, Deps.search_deps w pkgs = (None, Some s) /\ s <> ∅).
Proof.
  unfold Deps.search_deps. case_decide; [left|right]; eauto.
Qed.

Lemma binary_or_not (w : World) (pkg_slug : string) :
  has_binary w pkg_slug \/ no_binary w pkg_slug.
Proof.
  destruct (search_deps_cases w [pkg_slug]) as [[l Hl]|(s & Hs & _)];
    [left|right]; eexists; eassumption.
Qed.

Lemma no_binary_truthy (w : World) (pkg_slug : string) :
  no_binary w pkg_slug ->
  exists s, truthy_set (Deps.search_deps w [pkg_slug]).2 = Some s.
Proof.
  intros [s Hs].
  destruct (search_deps_cases w [pkg_slug]) as [[l Hl]|(s' & Hs' & Hne)];
    [congruence|].
  rewrite Hs'. simpl. exists s'. now case_decide.
Qed.

Lemma has_binary_falsy (w : World) (pkg_slug : string) :
  has_binary w pkg_slug ->
  truthy_set (Deps.search_deps w [pkg_slug]).2 = None.
Proof. intros [l ->]. reflexivity. Qed.

(** The loop only ever logs the warning, and what it returns is the
    accumulator followed by the non-blank names. *)
Lemma check_self_dependency_Ok (w : World) (pkg_slug : string)
    (tmp : list string) :
  forall acc search_pkgs t,
    Deps.check_self_dependency w pkg_slug tmp acc = (Ok search_pkgs, t) ->
    search_pkgs = acc ++ non_blank tmp /\
    t = replicate (length (List.filter (fun i => bool_decide (i = pkg_slug)) tmp))
                  Deps.msg_self_warning /\
    (pkg_slug ∈ tmp -> has_binary w pkg_slug).
Proof.
  induction tmp as [|i tmp IH]; intros acc sp t; simpl.
  - intros [= <- <-]. rewrite app_nil_r. repeat split. intros []%elem_of_nil.
  - assert (Hacc : forall rest,
      (if blank i then acc else acc ++ [i]) ++ rest
      = acc ++ (if negb (blank i) then i :: rest else rest)).
    { intros rest. destruct (blank i); simpl; [reflexivity|].
      now rewrite <- app_assoc. }
    case_decide as Hi.
    + subst i. rewrite bool_decide_eq_true_2 by reflexivity.
      destruct (binary_or_not w pkg_slug) as [Hb|Hn].
      * rewrite (has_binary_falsy _ _ Hb).
        destruct (Deps.check_self_dependency _ _ tmp _) as [r t'] eqn:Hrec.
        intros [= -> <-]. apply IH in Hrec as (-> & -> & _).
        rewrite Hacc. repeat split; auto.
      * destruct (no_binary_truthy _ _ Hn) as [s ->]. discriminate.
    + rewrite bool_decide_eq_false_2 by exact Hi.
      intros Hrec. apply IH in Hrec as (-> & -> & Hb).
      rewrite Hacc. repeat split; auto.
      intros [->|Hin]%elem_of_cons; [congruence|auto].
Qed.

Lemma check_self_dependency_Raise (w : World) (pkg_slug : string)
    (tmp : list string) :
  forall acc e t,
    Deps.check_self_dependency w pkg_slug tmp acc = (Raise e, t) ->
    e = Deps.self_dependency_error /\
    pkg_slug ∈ tmp /\ no_binary w pkg_slug /\
    exists n, t = replicate n Deps.msg_self_warning.
Proof.
  induction tmp as [|i tmp IH]; intros acc e t; simpl; [discriminate|].
  case_decide as Hi.
  - subst i. destruct (binary_or_not w pkg_slug) as [Hb|Hn].
    + rewrite (has_binary_falsy _ _ Hb).
      destruct (Deps.check_self_dependency _ _ tmp _) as [r t'] eqn:Hrec.
      intros [= -> <-]. apply IH in Hrec as (-> & Hin & Hn & n & ->).
      repeat split; [constructor|auto|]. now exists (S n).
    + destruct (no_binary_truthy _ _ Hn) as [s ->].
      intros [= <- <-]. repeat split; [constructor|auto|]. now exists 0.
  - intros Hrec. apply IH in Hrec as (-> & Hin & Hn & n & ->).
    repeat split; [now constructor|auto|]. now exists n.
Qed.


Lemma check_self_dependency_trace (w : World) (pkg_slug : string)
    (tmp acc : list string) :
  exists n,
    (Deps.check_self_dependency w pkg_slug tmp acc).2
    = replicate n Deps.msg_self_warning.
Proof.
  destruct (Deps.check_self_dependency w pkg_slug tmp acc) as [[sp|e] t] eqn:E.
  - apply check_self_dependency_Ok in E as (_ & -> & _). eauto.
  - apply check_self_dependency_Raise in E as (_ & _ & _ & n & ->). eauto.
Qed.

(** *** One invocation *)

Lemma process_deps_unfold (self : Deps.Dependencies)
    (build_deps run_deps : list string) (pkg_slug : string) (w : World) :
  Deps.process_deps self build_deps run_deps pkg_slug w =
    match invocation self build_deps run_deps pkg_slug w with
    | Done r w' t => (r, self, w', t)
    | Retry w2 t =>
        match Deps.process_deps (Deps.mkDependencies (S (Deps.retry self)))
                build_deps run_deps pkg_slug w2 with
        | (r, self', w3, t3) => (dropped r, self', w3, t ++ t3)
        end
    end.
Proof.
  unfold invocation. simp process_deps.
  destruct (Deps.check_self_dependency _ _ _ _) as [[sp|e] t0];
    simpl; [|reflexivity].
  destruct (Deps.search_deps w sp) as [ti na]; simpl.
  destruct (le_lt_dec (Deps.retry self) 1) as [Hle|Hgt]; simpl;
    case_decide; try lia.
  - destruct (truthy_set na); [trace_eq|].
    destruct (or_empty ti) as [|p ps]; [trace_eq|].
    destruct (install_pkgs (p :: ps) w) as [[u|e] w1]; [trace_eq|].
    destruct (correct_deps w1) as [[u|e'] w2]; [|trace_eq].
    destruct (Deps.process_deps _ _ _ _ _) as [[[[v|e''] self'] w3] t3];
      simpl; trace_eq.
  - destruct (truthy_set na); trace_eq.
Qed.

(** A retry is taken only with a counter of at most 1. *)
Lemma invocation_Retry (self : Deps.Dependencies)
    (build_deps run_deps : list string) (pkg_slug : string) (w w2 : World)
    (t : list event) :
  invocation self build_deps run_deps pkg_slug w = Retry w2 t ->
  Deps.retry self <= 1 /\
  count is_invocation t = 1 /\ count is_install t = 1 /\
  count is_install_failure t = 1 /\ count is_exhaust t = 0.
Proof.
  unfold invocation.
  pose proof (check_self_dependency_trace w pkg_slug
                (build_deps ++ run_deps) []) as [n Ht].
  destruct (Deps.check_self_dependency _ _ _ _) as [[sp|e] t0];
    [|discriminate].
  simpl in Ht. subst t0.
  case_decide; [destruct (truthy_set _); discriminate|].
  destruct (truthy_set _); [discriminate|].
  destruct (or_empty _) as [|p ps]; [discriminate|].
  destruct (install_pkgs (p :: ps) w) as [[u|e] w1]; [discriminate|].
  destruct (correct_deps w1) as [[u|e'] w3]; [|discriminate].
  intros [= <- <-]. split; [lia|].
  count_trace. repeat split.
Qed.

(** An invocation that exits installs at most once, and not at all in
    exhaust mode, which it enters exactly when the counter exceeds 1 and
    the self-dependency check has passed.  It exits after a failed
    installation only when the correction of line 57 raises. *)
Lemma invocation_Done (self : Deps.Dependencies)
    (build_deps run_deps : list string) (pkg_slug : string) (w w' : World)
    (r : outcome pyval) (t : list event) :
  invocation self build_deps run_deps pkg_slug w = Done r w' t ->
  count is_invocation t = 1 /\ count is_install t <= 1 /\
  (count is_install_failure t = 0 \/
   count is_install_failure t = 1 /\ count is_install t = 1 /\
   Deps.retry self <= 1 /\ exists e, r = Raise e) /\
  (count is_install t = 0 -> w' = w) /\
  (1 < Deps.retry self ->
   count is_install t = 0 /\
   (r = Raise Deps.self_dependency_error /\ count is_exhaust t = 0 \/
    count is_exhaust t = 1 /\ r <> Raise Deps.self_dependency_error)) /\
  (Deps.retry self <= 1 -> count is_exhaust t = 0).
Proof.
  unfold invocation.
  destruct (Deps.check_self_dependency _ _ _ _) as [[sp|e] t0] eqn:Hchk.
  - apply check_self_dependency_Ok in Hchk as (_ & -> & _).
    simpl. case_decide.
    + destruct (truthy_set _); intros [= <- <- <-]; count_trace;
        (split; [|split; [|split; [left|]]]); exit_facts.
    + destruct (truthy_set _);
        [intros [= <- <- <-]; count_trace;
         (split; [|split; [|split; [left|]]]); exit_facts|].
      destruct (or_empty _) as [|p ps];
        [intros [= <- <- <-]; count_trace;
         (split; [|split; [|split; [left|]]]); exit_facts|].
      destruct (install_pkgs (p :: ps) w) as [[u|e] w1].
      * intros [= <- <- <-]. count_trace.
        (split; [|split; [|split; [left|]]]); exit_facts.
      * destruct (correct_deps w1) as [[u|e'] w2]; [discriminate|].
        intros [= <- <- <-]. count_trace.
        split; [reflexivity|]. split; [lia|].
        split; [right; repeat split; [lia|eauto]|].
        split; [discriminate|]. split; [lia|reflexivity].
  - apply check_self_dependency_Raise in Hchk as (-> & _ & _ & n & ->).
    intros [= <- <- <-]. count_trace.
    (split; [|split; [|split; [left|]]]); exit_facts.
Qed.



(** *** Whole runs *)

(** The facts every run satisfies, by induction on the distance of the
    counter from 2.  The counter goes up by one with each re-invocation;
    an installation failure is followed by a re-invocation unless the
    correction raises, which ends the run. *)
Lemma process_deps_run (n : nat) :
  forall (self : Deps.Dependencies), 2 - Deps.retry self <= n ->
  forall build_deps run_deps pkg_slug w r self' w' t,
    Deps.process_deps self build_deps run_deps pkg_slug w = (r, self', w', t) ->
    (count is_invocation t = 1 + (Deps.retry self' - Deps.retry self) /\
     Deps.retry self <= Deps.retry self') /\
    Deps.retry self' - Deps.retry self <= count is_install_failure t /\
    count is_install_failure t <= 1 + (Deps.retry self' - Deps.retry self) /\
    (forall v, r = Ok v ->
     count is_install_failure t = Deps.retry self' - Deps.retry self) /\
    count is_install_failure t <= count is_install t /\
    count is_install_failure t <= 2 - Deps.retry self /\
    (0 < count is_install_failure t -> r = dropped r) /\
    (1 < Deps.retry self ->
     self' = self /\ w' = w /\ count is_install t = 0 /\
     (r = Raise Deps.self_dependency_error /\ count is_exhaust t = 0 \/
      count is_exhaust t = 1 /\ r <> Raise Deps.self_dependency_error)).
Proof.
  induction n as [|n IH]; intros self Hn bd rd slug w r self' w' t;
    rewrite process_deps_unfold;
    destruct (invocation self bd rd slug w) as [r0 w0 t0|w2 t2] eqn:Hinv.
  1, 3: intros [= <- <- <- <-];
    apply invocation_Done in Hinv as (Hi & Hins & Hf & Hw & Hex & _);
    rewrite Hi;
    (split; [lia|]);
    (destruct Hf as [Hf|(Hf & Hins1 & Hle & e & ->)]; rewrite Hf;
     [|rewrite Hins1]);
    (split; [lia|]); (split; [lia|]);
    (split; [intros v Hv; first [lia|discriminate]|]);
    (split; [lia|]); (split; [lia|]);
    (split; [intros Hpos; first [lia|reflexivity]|]);
    intros Hgt; first [lia|destruct (Hex Hgt) as [Hz Hr]];
    (split; [reflexivity|]); (split; [auto|]); (split; [exact Hz|exact Hr]).
  - apply invocation_Retry in Hinv as (Hle & _). lia.
  - apply invocation_Retry in Hinv as (Hle & Hi & Hins & Hf & Hex).
    destruct (Deps.process_deps _ bd rd slug w2) as [[[r3 self3] w3] t3]
      eqn:Hrec.
    intros [= <- <- <- <-].
    apply IH in Hrec as ([Hr Hup] & Hlo & Hhi & Hok & Hins3 & Hb3 & _);
      [|simpl; lia].
    simpl in Hr, Hup, Hlo, Hhi, Hok, Hb3. count_trace. rewrite Hi, Hins, Hf.
    split; [lia|]. split; [lia|]. split; [lia|].
    split; [intros v Hv; destruct r3 as [v3|e3]; [|discriminate];
            specialize (Hok v3 eq_refl); lia|].
    split; [lia|]. split; [lia|].
    split; [intros _; now destruct r3|lia].
Qed.

Lemma process_deps_facts (self : Deps.Dependencies)
    (build_deps run_deps : list string) (pkg_slug : string) (w : World)
    r self' w' t :
  Deps.process_deps self build_deps run_deps pkg_slug w = (r, self', w', t) ->
  (count is_invocation t = 1 + (Deps.retry self' - Deps.retry self) /\
   Deps.retry self <= Deps.retry self') /\
  Deps.retry self' - Deps.retry self <= count is_install_failure t /\
  count is_install_failure t <= 1 + (Deps.retry self' - Deps.retry self) /\
  (forall v, r = Ok v ->
   count is_install_failure t = Deps.retry self' - Deps.retry self) /\
  count is_install_failure t <= count is_install t /\
  count is_install_failure t <= 2 - Deps.retry self /\
  (0 < count is_install_failure t -> r = dropped r) /\
  (1 < Deps.retry self ->
   self' = self /\ w' = w /\ count is_install t = 0 /\
   (r = Raise Deps.self_dependency_error /\ count is_exhaust t = 0 \/
    count is_exhaust t = 1 /\ r <> Raise Deps.self_dependency_error)).
Proof. apply (process_deps_run (2 - Deps.retry self)). lia. Qed.

(** C8: [process_deps] is a total function: every call ends with a value
    or an exception.  A run makes one invocation more than the counter
    has gone up: each re-invocation comes right after an increment, and
    each increment after an installation failure whose correction has
    returned.  So the re-invocations are at most the installation
    failures, exactly as many when the run ends with a value, and one
    less at most (when the last correction raises, the counter is not
    incremented and the run ends).  The counter allows no retry once it
    exceeds 1: a run has at most three invocations, the original one
    and two re-invocations, and a single one when the counter exceeds 1
    at the start. *)
Theorem process_deps_terminates (self : Deps.Dependencies)
    (build_deps run_deps : list string) (pkg_slug : string) (w : World) :
  exists r self' w' t,
    Deps.process_deps self build_deps run_deps pkg_slug w = (r, self', w', t) /\
    count is_invocation t = 1 + (Deps.retry self' - Deps.retry self) /\
    Deps.retry self <= Deps.retry self' /\
    Deps.retry self' - Deps.retry self <= count is_install_failure t /\
    count is_install_failure t <= 1 + (Deps.retry self' - Deps.retry self) /\
    (forall v, r = Ok v ->
     Deps.retry self' - Deps.retry self = count is_install_failure t) /\
    count is_invocation t <= 3 /\
    (if decide (1 < Deps.retry self) then count is_invocation t = 1
     else Deps.retry self' <= 2).
Proof.
  destruct (Deps.process_deps self build_deps run_deps pkg_slug w)
    as [[[r self'] w'] t] eqn:Hrun.
  exists r, self', w', t. split; [reflexivity|].
  apply process_deps_facts in Hrun
    as ([Hr Hup] & Hlo & Hhi & Hok & _ & Hb & _ & Hex).
  split; [lia|]. split; [lia|]. split; [exact Hlo|]. split; [exact Hhi|].
  split; [intros v Hv; symmetry; exact (Hok v Hv)|].
  split; [lia|]. case_decide; lia.
Qed.

End DepsFacts.

Section DepsClaims.
Context {World : Type} `{PackageManager World}.

Lemma binary_exclusive (w : World) (pkg_slug : string) :
  has_binary w pkg_slug -> no_binary w pkg_slug -> False.
Proof. intros [l Hl] [s Hs]. congruence. Qed.




(** A run that retried hands its caller [None] or an exception, never
    the list computed in exhaust mode. *)
Lemma retried_run_returns_none (self : Deps.Dependencies)
    (build_deps run_deps : list string) (pkg_slug : string) (w : World)
    r self' w' t :
  Deps.process_deps self build_deps run_deps pkg_slug w = (r, self', w', t) ->
  0 < count is_install_failure t ->
  r = Ok PyNone \/ exists e, r = Raise e.
Proof.
  intros Hrun Hf.
  apply process_deps_facts in Hrun as (_ & _ & _ & _ & _ & _ & Hd & _).
  specialize (Hd Hf). destruct r as [v|e]; [left|right; eauto].
  simpl in Hd. congruence.
Qed.



End DepsClaims.

(** *** Runs on the simulated host *)

(** C3: the run for [demo], which needs [zlib], on a fresh instance.
    Both installations fail, the third invocation runs with the counter
    at 2, enters exhaust mode and returns the list [zlib]; the two
    callers above it drop the value, and the original caller receives
    [None]. *)
Theorem exhaust_result_is_dropped :
  (exists t,
     Deps.process_deps (H := sim_package_manager)
       Deps.init ["zlib"] [] "demo" flaky_host
     = (Ok PyNone, Deps.mkDependencies 2, settled_host, t) /\
     count is_invocation t = 3 /\ count is_exhaust t = 1) /\
  (exists t,
     Deps.process_deps (H := sim_package_manager)
       (Deps.mkDependencies 2) ["zlib"] [] "demo" settled_host
     = (Ok (PyList ["zlib"]), Deps.mkDependencies 2, settled_host, t)).
Proof.
  split; eexists.
  - split; [vm_compute; reflexivity|]. split; reflexivity.
  - vm_compute; reflexivity.
Qed.



(** On the simulated host, having no binary package is being neither
    installed nor available. *)
Lemma sim_no_binary_iff (h : SimHost) (pkg_slug : string) :
  no_binary (H := sim_package_manager) h pkg_slug <->
  (pkg_slug ∉ sim_installed h) /\ (pkg_slug ∉ sim_available h).
Proof.
  unfold no_binary, Deps.search_deps. simpl.
  destruct (bool_decide (pkg_slug ∈ sim_installed h)) eqn:Hi; simpl.
  - apply bool_decide_eq_true in Hi.
    rewrite decide_True by set_solver +.
    split; [intros [s [=]]|intros [[] _]; exact Hi].
  - apply bool_decide_eq_false in Hi.
    destruct (bool_decide (pkg_slug ∈ sim_available h)) eqn:Ha; simpl.
    + apply bool_decide_eq_true in Ha.
      rewrite decide_True by apply difference_diag_L.
      split; [intros [s [=]]|intros [_ []]; exact Ha].
    + apply bool_decide_eq_false in Ha.
      rewrite decide_False by set_solver +.
      split; [auto|eauto].
Qed.


(** When the correction of line 57 raises, the run ends there: one
    installation failure is logged, the counter is not incremented and
    there is no re-invocation. *)
Lemma raising_correction_ends_run :
  exists w' t,
    Deps.process_deps (H := sim_stuck_package_manager)
      Deps.init ["zlib"] [] "demo" flaky_host
    = (Raise unable_to_correct, Deps.init, w', t) /\
    count is_install_failure t = 1 /\ count is_invocation t = 1.
Proof.
  eexists _, _. split; [vm_compute; reflexivity|]. split; reflexivity.
Qed.

(** ** The build driver *)

Section MainFacts.
Context {World : Type} `{BuildEnv World} `{Subprocess World}.

Abbreviation no_build_step := (fun ev => is_build_step ev = false).
Abbreviation no_graph_call := (fun ev => is_graph_call ev = false).

(** *** The scan for loops *)

(** The scan never fails and never touches the world: it logs one error
    per loop, raises the flag at the first loop, and extends the queue
    with the components in front of it only. *)
Lemma check_loops_run (resolved : list (list ACBSPackageInfo)) :
  forall (error : bool) (packages : list ACBSPackageInfo) (w : World),
    Main.check_loops resolved error packages w =
    (Ok (error || existsb is_loop resolved,
         if error then packages
         else packages ++ concat (before_first_loop resolved)),
     w, map Main.loop_error (List.filter is_loop resolved)).
Proof.
  induction resolved as [|dep rest IH]; intros error packages w.
  - simpl. unfold ret. rewrite orb_false_r.
    destruct error; [reflexivity|now rewrite app_nil_r].
  - cbn [Main.check_loops existsb List.filter before_first_loop].
    fold (is_loop dep). destruct (is_loop dep) eqn:Hdep.
    + unfold bind, emit. rewrite IH. cbn [map].
      rewrite orb_true_r. simpl.
      destruct error; [reflexivity|now rewrite app_nil_r].
    + destruct error; simpl; rewrite IH; simpl; [reflexivity|].
      now rewrite <- app_assoc.
Qed.

Lemma first_loop_split (resolved : list (list ACBSPackageInfo)) :
  Exists (fun dep => 1 < length dep) resolved ->
  exists before loop after,
    resolved = before ++ loop :: after /\
    Forall (fun dep => length dep <= 1) before /\
    1 < length loop /\
    before_first_loop resolved = before /\
    existsb is_loop resolved = true.
Proof.
  induction resolved as [|dep rest IH]; intros Hex.
  - inversion Hex.
  - simpl. destruct (is_loop dep) eqn:Hdep; unfold is_loop in Hdep.
    + apply Nat.ltb_lt in Hdep. exists [], dep, rest.
      repeat split; [constructor|exact Hdep].
    + apply Nat.ltb_ge in Hdep.
      apply Exists_cons in Hex as [Hbig|Hex]; [lia|].
      destruct (IH Hex)
        as (before & loop & after & -> & Hsmall & Hbig & Hb & He).
      exists (dep :: before), loop, after.
      rewrite Hb. repeat split; [constructor|..]; assumption.
Qed.

(** *** Before the loop over the packages *)

Lemma find_packages_no_build_step (self : Main.BuildCore)
    (queue : list string) :
  forall packages, emits no_build_step (Main.find_packages self queue packages).
Proof.
  induction queue as [|i rest IH]; intros packages; simpl.
  - emits_step.
  - repeat emits_step. apply IH.
Qed.

Lemma resolve_no_build_step (self : Main.BuildCore)
    (packages : list ACBSPackageInfo) :
  emits no_build_step (Main.resolve self packages).
Proof.
  unfold Main.resolve. destruct (negb (Main.no_deps self)); repeat emits_step.
Qed.

(** C1: when the resolution holds a component of more than one package,
    [build] logs an error for every such component of the whole list,
    has put in its queue only the components in front of the first of
    them, raises the fatal error, and has performed no step of the
    per-package loop. *)
Theorem build_aborts_on_loop (self : Main.BuildCore) (w0 w1 w2 : World)
    (packages : list ACBSPackageInfo) (t1 t2 : list event)
    (resolved : list (list ACBSPackageInfo)) :
  Main.find_packages self (Main.build_queue self) [] w0 = (Ok packages, w1, t1) ->
  Main.resolve self packages w1 = (Ok resolved, w2, t2) ->
  Exists (fun dep => 1 < length dep) resolved ->
  exists before loop after,
    resolved = before ++ loop :: after /\
    Forall (fun dep => length dep <= 1) before /\
    1 < length loop /\
    Main.check_loops resolved false [] w2
    = (Ok (true, concat before), w2,
       map Main.loop_error (List.filter is_loop resolved)) /\
    Main.build self w0
    = (Raise Main.unresolved_error, w2,
       [Log INFO "Searching and resolving dependencies..." []] ++ t1 ++ t2
       ++ [Print EmptyString] ++ map Main.loop_error (List.filter is_loop resolved)) /\
    Forall no_build_step (Main.build self w0).2.
Proof.
  intros Hfind Hres Hex.
  destruct (first_loop_split resolved Hex)
    as (before & loop & after & Hsplit & Hsmall & Hbig & Hb & He).
  exists before, loop, after.
  assert (Hscan : Main.check_loops resolved false [] w2
    = (Ok (true, concat before), w2,
       map Main.loop_error (List.filter is_loop resolved))).
  { rewrite check_loops_run, He, Hb. reflexivity. }
  assert (Hbuild : Main.build self w0
    = (Raise Main.unresolved_error, w2,
       [Log INFO "Searching and resolving dependencies..." []] ++ t1 ++ t2
       ++ [Print EmptyString] ++ map Main.loop_error (List.filter is_loop resolved))).
  { unfold Main.build, Main.build_resolved, logging.
    unfold bind at 1, emit at 1.
    rewrite (bind_Ok _ _ _ _ _ _ Hfind), (bind_Ok _ _ _ _ _ _ Hres).
    unfold bind at 1, emit at 1. rewrite (bind_Ok _ _ _ _ _ _ Hscan).
    cbn [fst snd]. unfold raise. rewrite app_nil_r. reflexivity. }
  repeat split; try assumption.
  rewrite Hbuild. cbn [snd].
  pose proof (find_packages_no_build_step self (Main.build_queue self) [] w0)
    as F1.
  pose proof (resolve_no_build_step self packages w1) as F2.
  rewrite Hfind in F1. rewrite Hres in F2. simpl in F1, F2.
  repeat (apply Forall_app; split); auto.
  apply Forall_map, Forall_forall. reflexivity.
Qed.

End MainFacts.

Section BuildLoopFacts.
Context {World : Type} `{BuildEnv World} `{Subprocess World}.

Abbreviation no_graph_call := (fun ev => is_graph_call ev = false).
Abbreviation no_autobuild := (fun ev => is_autobuild ev = false).

(** *** Download-only mode and the task handed to the build tool *)

Lemma prepare_Some (self : Main.BuildCore) (task staged : ACBSPackageInfo)
    (build_dir : string) (w w' : World) (t : list event) :
  Main.prepare self task w = (Ok (Some (staged, build_dir)), w', t) ->
  Main.dl_only self = false /\ name staged = name task.
Proof.
  unfold Main.prepare.
  intros (_ & w1 & t1 & t2 & _ & Hk & _)%bind_Ok_inv.
  apply bind_Ok_inv in Hk as (stamped & w2 & t3 & t4 & _ & Hk & _).
  apply bind_Ok_inv in Hk as (_ & w3 & t5 & t6 & _ & Hk & _).
  destruct (Main.dl_only self); [discriminate|]. split; [reflexivity|].
  apply bind_Ok_inv in Hk as (st & w4 & t7 & t8 & Hst & Hk & _).
  apply bind_Ok_inv in Hk as (dir & w5 & t9 & t10 & _ & Hk & _).
  apply bind_Ok_inv in Hk as (_ & w6 & t11 & t12 & _ & Hk & _).
  injection Hk as <- _ _ _.
  destruct (negb (nonempty (build_location task))).
  - apply bind_Ok_inv in Hst as (bd & w7 & t13 & t14 & _ & Hst & _).
    apply bind_Ok_inv in Hst as (_ & w8 & t15 & t16 & _ & Hst & _).
    now injection Hst as <- _ _.
  - apply bind_Ok_inv in Hst as (s2 & w7 & t13 & t14 & _ & Hst & _).
    apply bind_Ok_inv in Hst as (_ & w8 & t15 & t16 & _ & Hst & _).
    now injection Hst as <- _ _.
Qed.

Lemma prepare_None (self : Main.BuildCore) (task : ACBSPackageInfo)
    (w w' : World) (t : list event) :
  Main.prepare self task w = (Ok None, w', t) -> Main.dl_only self = true.
Proof.
  unfold Main.prepare.
  intros (_ & w1 & t1 & t2 & _ & Hk & _)%bind_Ok_inv.
  apply bind_Ok_inv in Hk as (stamped & w2 & t3 & t4 & _ & Hk & _).
  apply bind_Ok_inv in Hk as (_ & w3 & t5 & t6 & _ & Hk & _).
  destruct (Main.dl_only self); [reflexivity|].
  apply bind_Ok_inv in Hk as (st & w4 & t7 & t8 & Hst & Hk & _).
  apply bind_Ok_inv in Hk as (dir & w5 & t9 & t10 & _ & Hk & _).
  apply bind_Ok_inv in Hk as (_ & w6 & t11 & t12 & _ & Hk & _).
  discriminate.
Qed.

Lemma prepare_no_autobuild (self : Main.BuildCore) (task : ACBSPackageInfo) :
  emits no_autobuild (Main.prepare self task).
Proof.
  unfold Main.prepare.
  repeat first
    [ apply install_from_repo_emits; intros; reflexivity | emits_step ].
Qed.

Lemma prepare_no_graph_call (self : Main.BuildCore) (task : ACBSPackageInfo) :
  emits no_graph_call (Main.prepare self task).
Proof.
  unfold Main.prepare.
  repeat first
    [ apply install_from_repo_emits; intros; reflexivity | emits_step ].
Qed.

(** *** The timed call *)

(** A timing entry is appended only when the build tool has returned:
    the timed call succeeds exactly by running the tool between two
    clock readings and appending one entry for the task. *)
Lemma timed_autobuild_Ok (task : ACBSPackageInfo) (build_dir : string)
    (timings timings' : list BuildTiming) (w w' : World) (t : list event) :
  Main.timed_autobuild task build_dir timings w = (Ok timings', w', t) ->
  exists start w1 w2 stop,
    monotonic w = (Ok start, w1) /\
    invoke_autobuild task build_dir w1 = (Ok tt, w2) /\
    monotonic w2 = (Ok stop, w') /\
    timings' = timings ++ [(name task, PrimFloat.sub stop start)] /\
    t = [Call Monotonic; Call (InvokeAutobuild task build_dir); Call Monotonic].
Proof.
  unfold Main.timed_autobuild.
  intros (start & w1 & t1 & t2 & Hs & Hk & ->)%bind_Ok_inv.
  apply external_Ok_inv in Hs as [Hs ->].
  apply bind_Ok_inv in Hk as ([] & w2 & t3 & t4 & Hb & Hk & ->).
  apply bind_Ok_inv in Hk as (stop & w3 & t5 & t6 & Hm & Hk & ->).
  apply external_Ok_inv in Hm as [Hm ->].
  injection Hk as <- <- <-.
  unfold try_except, external in Hb.
  destruct (invoke_autobuild task build_dir w1) as [[[]|e] w2'] eqn:Hrun.
  - injection Hb as -> <-. now exists start, w1, w2, stop.
  - simpl in Hb. destruct timings as [|entry timings].
    + discriminate.
    + unfold bind, external, raise in Hb.
      destruct (print_build_timings _ w2') as [[[]|e'] w5]; discriminate.
Qed.

(** The timed call when the build tool fails: the entries collected so
    far are printed, if there are any, and the build failure is raised
    for the task and its build folder. *)
Lemma timed_autobuild_failure (task : ACBSPackageInfo) (build_dir : string)
    (timings : list BuildTiming) (w w1 w2 : World) (start : float) (ex : exn) :
  monotonic w = (Ok start, w1) ->
  invoke_autobuild task build_dir w1 = (Raise ex, w2) ->
  Main.timed_autobuild task build_dir timings w =
    match timings with
    | [] =>
        (Raise (Main.build_failure (name task) build_dir), w2,
         [Call Monotonic; Call (InvokeAutobuild task build_dir)])
    | _ :: _ =>
        match print_build_timings timings w2 with
        | (Ok _, w3) =>
            (Raise (Main.build_failure (name task) build_dir), w3,
             [Call Monotonic; Call (InvokeAutobuild task build_dir);
              Call (PrintBuildTimings timings)])
        | (Raise e, w3) =>
            (Raise e, w3,
             [Call Monotonic; Call (InvokeAutobuild task build_dir);
              Call (PrintBuildTimings timings)])
        end
    end.
Proof.
  intros Hs Hrun. unfold Main.timed_autobuild.
  unfold bind at 1, external at 1. rewrite Hs.
  unfold bind at 1, try_except, external at 1. rewrite Hrun. simpl.
  destruct timings as [|entry timings]; [reflexivity|].
  unfold bind, external, raise.
  destruct (print_build_timings _ w2) as [[[]|e] w3]; reflexivity.
Qed.

(** *** The loop *)

Lemma build_loop_app (self : Main.BuildCore)
    (before after : list ACBSPackageInfo) :
  forall (timings : list BuildTiming) (w : World),
    Main.build_loop self (before ++ after) timings w
    = bind (Main.build_loop self before timings)
           (fun timings' => Main.build_loop self after timings') w.
Proof.
  induction before as [|task before IH]; intros timings w; simpl.
  - unfold bind, ret.
    destruct (Main.build_loop self after timings w) as [[r w1] t1].
    reflexivity.
  - unfold bind at 1 2 3.
    destruct (Main.build_task self task timings w) as [[[tm|e] w1] t1];
      [|reflexivity].
    rewrite IH. unfold bind.
    destruct (Main.build_loop self before tm w1) as [[[tm2|e2] w2] t2];
      [|reflexivity].
    destruct (Main.build_loop self after tm2 w2) as [[r w3] t3].
    now rewrite app_assoc.
Qed.

(** One iteration that completes: nothing in download-only mode, one
    entry and one run of the build tool otherwise. *)
Lemma build_task_Ok (self : Main.BuildCore) (task : ACBSPackageInfo)
    (timings timings' : list BuildTiming) (w w' : World) (t : list event) :
  Main.build_task self task timings w = (Ok timings', w', t) ->
  if Main.dl_only self
  then timings' = timings /\ count is_autobuild t = 0
  else (exists elapsed, timings' = timings ++ [(name task, elapsed)]) /\
       count is_autobuild t = 1.
Proof.
  unfold Main.build_task.
  intros (prepared & w1 & t1 & t2 & Hp & Hk & ->)%bind_Ok_inv.
  pose proof (prepare_no_autobuild self task w) as Hna.
  rewrite Hp in Hna. simpl in Hna.
  assert (Hz : count is_autobuild t1 = 0).
  { unfold count. clear Hp. induction Hna as [|ev t1 Hev Hna IH];
      [reflexivity|]. simpl. now rewrite Hev. }
  rewrite count_app, Hz.
  destruct prepared as [[staged build_dir]|].
  - apply prepare_Some in Hp as [-> Hname].
    apply timed_autobuild_Ok in Hk
      as (start & w2 & w3 & stop & _ & _ & _ & -> & ->).
    rewrite Hname. split; [eauto|reflexivity].
  - apply prepare_None in Hp as ->. now injection Hk as <- _ <-.
Qed.

Lemma build_loop_Ok (self : Main.BuildCore) (packages : list ACBSPackageInfo) :
  forall (timings timings' : list BuildTiming) (w w' : World) (t : list event),
    Main.build_loop self packages timings w = (Ok timings', w', t) ->
    if Main.dl_only self
    then timings' = timings /\ count is_autobuild t = 0
    else map fst timings' = map fst timings ++ map name packages /\
         count is_autobuild t = length packages.
Proof.
  induction packages as [|task rest IH]; intros timings timings' w w' t; simpl.
  - intros [= <- _ <-]. rewrite app_nil_r. now destruct (Main.dl_only self).
  - intros (tm & w1 & t1 & t2 & Ht & Hk & ->)%bind_Ok_inv.
    apply build_task_Ok in Ht. apply IH in Hk.
    rewrite count_app. destruct (Main.dl_only self).
    + destruct Ht as [-> ->], Hk as [-> ->]. split; reflexivity.
    + destruct Ht as [[elapsed ->] ->], Hk as [-> ->].
      rewrite map_app, <- app_assoc. split; reflexivity.
Qed.

(** C7: the build tool fails for the task that follows [before] in the
    queue.  The entries collected so far are one per package of
    [before], in order and under its name, each appended after a run of
    the build tool that returned; the driver prints them (when there
    are any) right after the failed call and then raises the build
    failure naming the task and its build folder.  Should the printing
    itself raise, that exception propagates instead. *)
Theorem build_failure_reports_timings (self : Main.BuildCore)
    (before after : list ACBSPackageInfo) (task staged : ACBSPackageInfo)
    (build_dir : string) (timings : list BuildTiming)
    (w0 w1 w2 w3 w4 : World) (t1 t2 : list event) (start : float) (ex : exn) :
  Main.build_loop self before [] w0 = (Ok timings, w1, t1) ->
  Main.prepare self task w1 = (Ok (Some (staged, build_dir)), w2, t2) ->
  monotonic w2 = (Ok start, w3) ->
  invoke_autobuild staged build_dir w3 = (Raise ex, w4) ->
  map fst timings = map name before /\
  count is_autobuild t1 = length before /\
  name staged = name task /\
  match timings with
  | [] =>
      Main.build_loop self (before ++ task :: after) [] w0
      = (Raise (Main.build_failure (name task) build_dir), w4,
         t1 ++ t2 ++ [Call Monotonic; Call (InvokeAutobuild staged build_dir)])
  | _ :: _ =>
      match print_build_timings timings w4 with
      | (Ok _, w5) =>
          Main.build_loop self (before ++ task :: after) [] w0
          = (Raise (Main.build_failure (name task) build_dir), w5,
             t1 ++ t2 ++
             [Call Monotonic; Call (InvokeAutobuild staged build_dir);
              Call (PrintBuildTimings timings)])
      | (Raise e, w5) =>
          Main.build_loop self (before ++ task :: after) [] w0
          = (Raise e, w5,
             t1 ++ t2 ++
             [Call Monotonic; Call (InvokeAutobuild staged build_dir);
              Call (PrintBuildTimings timings)])
      end
  end.
Proof.
  intros Hbefore Hprep Hstart Hfail.
  pose proof (prepare_Some _ _ _ _ _ _ _ Hprep) as [Hdl Hname].
  pose proof (build_loop_Ok _ _ _ _ _ _ _ Hbefore) as Hok.
  rewrite Hdl in Hok. destruct Hok as [Hnames Hcount].
  split; [exact Hnames|]. split; [exact Hcount|]. split; [exact Hname|].
  assert (Hrun : Main.build_loop self (before ++ task :: after) [] w0 =
    match Main.timed_autobuild staged build_dir timings w2 with
    | (Ok tm, w5, t3) =>
        match Main.build_loop self after tm w5 with
        | (r, w6, t4) => (r, w6, t1 ++ t2 ++ t3 ++ t4)
        end
    | (Raise e, w5, t3) => (Raise e, w5, t1 ++ t2 ++ t3)
    end).
  { rewrite build_loop_app, (bind_Ok _ _ _ _ _ _ Hbefore).
    cbn [Main.build_loop]. unfold bind at 1. unfold Main.build_task.
    rewrite (bind_Ok _ _ _ _ _ _ Hprep).
    destruct (Main.timed_autobuild staged build_dir timings w2)
      as [[[tm|e] w5] t3]; [|reflexivity].
    destruct (Main.build_loop self after tm w5) as [[r w6] t4].
    now rewrite <- !app_assoc. }
  rewrite Hrun, (timed_autobuild_failure _ _ _ _ _ _ _ _ Hstart Hfail).
  rewrite <- Hname.
  destruct timings as [|entry timings]; [reflexivity|].
  destruct (print_build_timings (entry :: timings) w4) as [[[]|e] w5];
    reflexivity.
Qed.

(** *** Without dependency resolution *)

Lemma find_packages_no_graph_call (self : Main.BuildCore)
    (queue : list string) :
  forall packages, emits no_graph_call (Main.find_packages self queue packages).
Proof.
  induction queue as [|i rest IH]; intros packages; simpl.
  - emits_step.
  - repeat emits_step. apply IH.
Qed.

Lemma build_loop_no_graph_call (self : Main.BuildCore)
    (packages : list ACBSPackageInfo) :
  forall timings, emits no_graph_call (Main.build_loop self packages timings).
Proof.
  induction packages as [|task rest IH]; intros timings; simpl.
  - emits_step.
  - apply emits_bind; [|intros tm; apply IH].
    unfold Main.build_task. apply emits_bind; [apply prepare_no_graph_call|].
    intros [[staged build_dir]|]; [|emits_step].
    unfold Main.timed_autobuild. repeat emits_step.
Qed.

Lemma build_resolved_no_graph_call (self : Main.BuildCore)
    (resolved : list (list ACBSPackageInfo)) :
  emits no_graph_call (Main.build_resolved self resolved).
Proof.
  unfold Main.build_resolved.
  apply emits_bind; [emits_step|intros _].
  apply emits_bind.
  { intros w. rewrite check_loops_run. simpl.
    apply Forall_map, Forall_forall. reflexivity. }
  intros checked. destruct (fst checked); [emits_step|].
  do 4 (apply emits_bind; [emits_step|intros ?]).
  apply emits_bind; [apply build_loop_no_graph_call|intros ?].
  emits_step.
Qed.

(** The lookups answer the requests in order. *)
Lemma find_packages_in_order (self : Main.BuildCore) (queue : list string) :
  forall (acc packages : list ACBSPackageInfo) (w w' : World) (t : list event),
    Main.find_packages self queue acc w = (Ok packages, w', t) ->
    exists found,
      packages = acc ++ concat found /\
      Forall2 (fun i package =>
                 package <> [] /\
                 exists wa wb,
                   find_package i (Main.tree_dir self) wa = (Ok package, wb))
              queue found.
Proof.
  induction queue as [|i rest IH]; intros acc packages w w' t; simpl.
  - intros [= <- _ _]. exists []. rewrite app_nil_r. split; constructor.
  - intros (_ & w1 & t1 & t2 & _ & Hk & _)%bind_Ok_inv.
    apply bind_Ok_inv in Hk as (package & w2 & t3 & t4 & Hf & Hk & _).
    apply external_Ok_inv in Hf as [Hf _].
    destruct package as [|p package]; [discriminate|].
    apply IH in Hk as (found & -> & Hall).
    exists ((p :: package) :: found). split.
    + simpl. now rewrite <- !app_assoc.
    + constructor; [|exact Hall]. split; [discriminate|eauto].
Qed.

(** C6: with [no_deps] set, the resolved queue is the list of the
    packages found for the requests, in the order of the requests, each
    as a unit of its own; the scan for loops passes them on unchanged
    and raises no flag; neither the graph builder nor the Tarjan search
    is called anywhere in the run. *)
Theorem no_deps_bypasses_resolution (self : Main.BuildCore) :
  Main.no_deps self = true ->
  (forall packages w w' t,
     Main.find_packages self (Main.build_queue self) [] w = (Ok packages, w', t) ->
     exists found,
       packages = concat found /\
       Forall2 (fun i package =>
                  package <> [] /\
                  exists wa wb,
                    find_package i (Main.tree_dir self) wa = (Ok package, wb))
               (Main.build_queue self) found) /\
  (forall packages w,
     Main.resolve self packages w
     = (Ok (map (fun package => [package]) packages), w,
        [Log WARNING "Warning: Dependency resolution disabled!" []])) /\
  (forall packages w,
     Main.check_loops (map (fun package => [package]) packages) false [] w
     = (Ok (false, packages), w, [])) /\
  (forall w, Forall no_graph_call (Main.build self w).2).
Proof.
  intros Hno. split; [|split; [|split]].
  - intros packages w w' t Hfind.
    apply find_packages_in_order in Hfind as (found & -> & Hall). eauto.
  - intros packages w. unfold Main.resolve. rewrite Hno. reflexivity.
  - intros packages w. rewrite check_loops_run.
    assert (Hsingle : forall l : list ACBSPackageInfo,
      existsb is_loop (map (fun package => [package]) l) = false /\
      List.filter is_loop (map (fun package => [package]) l) = [] /\
      concat (before_first_loop (map (fun package => [package]) l)) = l).
    { induction l as [|p l (He & Hf & Hb)]; [repeat split|].
      simpl. rewrite He, Hf, Hb. repeat split. }
    destruct (Hsingle packages) as (-> & -> & ->). reflexivity.
  - unfold Main.build.
    apply emits_bind; [emits_step|intros _].
    apply emits_bind; [apply find_packages_no_graph_call|intros packages].
    apply emits_bind; [|intros resolved; apply build_resolved_no_graph_call].
    unfold Main.resolve. rewrite Hno. simpl. repeat emits_step.
Qed.

End BuildLoopFacts.

(** *** Runs of the driver on the simulated host *)

Lemma build_aborts_on_loop_witness :
  exists t,
    Main.build (H := sim_build_env) (H0 := sim_subprocess)
      (sim_core false ["a"; "b"]) looping_host
    = (Raise Main.unresolved_error, looping_host, t) /\
    count (fun ev => match ev with Log ERROR _ _ => true | _ => false end) t = 2 /\
    Forall (fun ev => is_build_step ev = false) t.
Proof.
  edestruct (build_aborts_on_loop (H := sim_build_env) (H0 := sim_subprocess)
               (sim_core false ["a"; "b"]) looping_host)
    as (before & loop & after & _ & _ & _ & _ & Hbuild & Hsteps).
  - vm_compute. reflexivity.
  - vm_compute. reflexivity.
  - apply Exists_cons_tl, Exists_cons_hd. simpl. lia.
  - rewrite Hbuild in Hsteps. eexists. split; [exact Hbuild|].
    split; [reflexivity|exact Hsteps].
Defined.

Lemma no_deps_bypasses_resolution_witness :
  Main.resolve (H := sim_build_env) (sim_core true ["a"; "b"])
    [sim_package "a" []; sim_package "b" []] looping_host
  = (Ok [[sim_package "a" []]; [sim_package "b" []]], looping_host,
     [Log WARNING "Warning: Dependency resolution disabled!" []]).
Proof.
  exact (proj1 (proj2 (no_deps_bypasses_resolution
                         (H := sim_build_env) (H0 := sim_subprocess)
                         (sim_core true ["a"; "b"]) eq_refl))
               [sim_package "a" []; sim_package "b" []] looping_host).
Defined.

Lemma build_failure_reports_timings_witness :
  exists t,
    Main.build_loop (H := sim_build_env) (H0 := sim_subprocess)
      (sim_core true five_packages)
      (map (fun slug => sim_package slug []) five_packages) [] broken_third
    = (Raise (Main.build_failure "third" "/var/cache/acbs/build/acbs.0/src"),
       broken_third, t) /\
    reports t = [[("first", PrimFloat.zero); ("second", PrimFloat.zero)]].
Proof.
  edestruct (build_failure_reports_timings
               (H := sim_build_env) (H0 := sim_subprocess)
               (sim_core true five_packages)
               [sim_package "first" []; sim_package "second" []]
               [sim_package "fourth" []; sim_package "fifth" []]
               (sim_package "third" [])
               (set_build_location (sim_package "third" [])
                                   "/var/cache/acbs/build/acbs.0")
               "/var/cache/acbs/build/acbs.0/src"
               [("first", PrimFloat.zero); ("second", PrimFloat.zero)]
               broken_third)
    as (_ & _ & _ & Hrun).
  - vm_compute. reflexivity.
  - vm_compute. reflexivity.
  - vm_compute. reflexivity.
  - vm_compute. reflexivity.
  - simpl in Hrun. eexists. split; [exact Hrun|]. vm_compute. reflexivity.
Defined.

(** * Further properties *)

(** ** Name escaping *)

Lemma escape_package_name_nil : escape_package_name EmptyString = EmptyString.
Proof. reflexivity. Qed.

(** An escaped name never starts with a bare metacharacter. *)
Lemma escape_package_name_head (s : string) :
  head_is_metacharacter (escape_package_name s) = false.
Proof.
  destruct s as [|c s]; [reflexivity|].
  rewrite escape_package_name_cons.
  destruct (is_metacharacter c) eqn:E; simpl; [reflexivity|exact E].
Qed.

Lemma backslash_is_plain : is_metacharacter "\" = false.
Proof. reflexivity. Qed.

Lemma unescape_escape (s : string) : unescape (escape_package_name s) = s.
Proof.
  induction s as [|c s IH]; [reflexivity|].
  rewrite escape_package_name_cons.
  destruct (is_metacharacter c) eqn:Hc.
  - cbn [unescape]. rewrite Ascii.eqb_refl, Hc, IH. reflexivity.
  - cbn [unescape]. destruct (Ascii.eqb c "\") eqn:Hb.
    + pose proof (escape_package_name_head s) as Hh.
      destruct (escape_package_name s) as [|d rest] eqn:Hs.
      * destruct s as [|c' s']; [reflexivity|].
        rewrite escape_package_name_cons in Hs.
        destruct (is_metacharacter c'); discriminate.
      * simpl in Hh. rewrite Hh. now rewrite IH.
    + now rewrite IH.
Qed.

(** X1: escaping loses nothing: the name can be read back from the
    escaped name, so two different package names never escape to the
    same pattern. *)
Theorem escape_package_name_injective (a b : string) :
  unescape (escape_package_name a) = a /\
  (escape_package_name a = escape_package_name b -> a = b).
Proof.
  split; [apply unescape_escape|].
  intros Heq. rewrite <- (unescape_escape a), <- (unescape_escape b).
  now rewrite Heq.
Qed.

Lemma escape_package_name_injective_witness :
  escape_package_name "g++" = escape_package_name "g++" /\ "g++" = "g++".
Proof.
  split; [reflexivity|].
  apply (proj2 (escape_package_name_injective "g++" "g++")). reflexivity.
Defined.

(** X2: escaping goes through concatenation: the escaped form of a name
    built from two parts is the two escaped parts put together. *)
Theorem escape_package_name_app (a b : string) :
  escape_package_name (a +:+ b)
  = escape_package_name a +:+ escape_package_name b.
Proof.
  induction a as [|c a IH]; [reflexivity|].
  change (String c a +:+ b) with (String c (a +:+ b)).
  rewrite !escape_package_name_cons, IH.
  now destruct (is_metacharacter c).
Qed.

Lemma count_metacharacters_escape (s : string) :
  count_metacharacters (escape_package_name s) = count_metacharacters s.
Proof.
  induction s as [|c s IH]; [reflexivity|].
  rewrite escape_package_name_cons.
  destruct (is_metacharacter c) eqn:Hc; simpl; rewrite ?Hc, IH; reflexivity.
Qed.

Lemma no_metacharacter_count (s : string) :
  no_metacharacter s = true <-> count_metacharacters s = 0.
Proof.
  induction s as [|c s IH]; [easy|].
  simpl. destruct (is_metacharacter c); simpl; [easy|exact IH].
Qed.

(** X3: escaping is not idempotent: escaping an escaped name gives the
    escaped name back exactly when the name holds no metacharacter;
    every other name gets longer again. *)
Theorem escape_package_name_twice (name : string) :
  (escape_package_name (escape_package_name name) = escape_package_name name
   <-> no_metacharacter name = true) /\
  String.length (escape_package_name (escape_package_name name))
  = String.length name + 2 * count_metacharacters name.
Proof.
  assert (Hlen : String.length (escape_package_name (escape_package_name name))
                 = String.length name + 2 * count_metacharacters name).
  { rewrite !escape_backslash_prefixed, backslash_prefixed_length.
    rewrite <- !escape_backslash_prefixed, count_metacharacters_escape.
    rewrite escape_backslash_prefixed, backslash_prefixed_length. lia. }
  split; [|exact Hlen]. split.
  - intros Heq. apply no_metacharacter_count.
    rewrite Heq in Hlen.
    rewrite escape_backslash_prefixed, backslash_prefixed_length in Hlen. lia.
  - intros Hplain.
    rewrite !escape_backslash_prefixed.
    now rewrite (backslash_prefixed_plain name Hplain),
                (backslash_prefixed_plain name Hplain).
Qed.

(** X4: in an escaped name no metacharacter stands bare: wherever a [+],
    [*] or [?] occurs, the character in front of it is a backslash. *)
Theorem escaped_metacharacter_follows_backslash (name : string) :
  forall (front : string) (c : ascii) (back : string),
    escape_package_name name = front +:+ String c back ->
    is_metacharacter c = true ->
    exists front', front = front' +:+ String "\" EmptyString.
Proof.
  induction name as [|x name IH]; intros front c back Heq Hc.
  - destruct front; discriminate.
  - destruct front as [|p front].
    + pose proof (escape_package_name_head (String x name)) as Hh.
      rewrite Heq in Hh. simpl in Hh. congruence.
    + rewrite escape_package_name_cons in Heq.
      destruct (is_metacharacter x) eqn:Hx.
      * simpl in Heq. injection Heq as <- Heq.
        destruct front as [|q front].
        { now exists EmptyString. }
        simpl in Heq. injection Heq as <- Heq.
        destruct (IH _ _ _ Heq Hc) as [front' ->].
        now exists (String "\" (String x front')).
      * simpl in Heq. injection Heq as <- Heq.
        destruct (IH _ _ _ Heq Hc) as [front' ->].
        now exists (String x front').
Qed.

Lemma escaped_metacharacter_follows_backslash_witness :
  escape_package_name "gcc+" = "gcc\" +:+ String "+" EmptyString /\
  is_metacharacter "+" = true /\
  exists front', "gcc\" = front' +:+ String "\" EmptyString.
Proof.
  split; [reflexivity|]. split; [reflexivity|].
  apply (escaped_metacharacter_follows_backslash
           "gcc+" "gcc\" "+"%char EmptyString); reflexivity.
Defined.

(** ** The bridge: installation *)

Section PmMore.
Context {World : Type} `{Subprocess World}.

Lemma install_command_is_no_repair (escaped : list string) :
  is_repair (Call (Spawn (Pm.install_command escaped))) = false.
Proof.
  unfold is_repair. apply bool_decide_eq_false. discriminate.
Qed.

Lemma attempts_cons (ev : event) (t : list event) :
  attempts (ev :: t) = (if is_repair ev then 1 else 0) + attempts t.
Proof. unfold attempts. simpl. now destruct (is_repair ev). Qed.

Lemma repair_and_install_apt_get_only (escaped : list string) :
  emits (apt_get_only escaped) (Pm.repair_and_install escaped).
Proof.
  unfold Pm.repair_and_install, Pm.check_call.
  apply emits_bind; [|intros _]; apply emits_external; simpl; auto.
Qed.

Lemma fix_pm_states_from_apt_get_only (escaped : list string) :
  forall count, emits (apt_get_only escaped) (Pm.fix_pm_states_from escaped count).
Proof.
  intros count. remember (3 - count) as n eqn:Hn.
  revert count Hn. induction n as [|n IH]; intros count Hn w.
  - rewrite fix_pm_states_from_exhausted by lia. constructor.
  - rewrite fix_pm_states_from_step by lia.
    pose proof (repair_and_install_apt_get_only escaped w) as Hatt.
    destruct (Pm.repair_and_install escaped w) as [[[u|e] w1] t1];
      [exact Hatt|].
    specialize (IH (S count) ltac:(lia) w1).
    destruct (Pm.fix_pm_states_from escaped (S count) w1) as [[r w2] t2].
    apply Forall_app. split; assumption.
Qed.

(** What the loop hands back from [count] on: it returns, or it raises
    the unable-to-correct error after running the attempts that were
    left. *)
Lemma fix_pm_states_from_outcome (escaped : list string) :
  forall count w,
    match Pm.fix_pm_states_from escaped count w with
    | (Ok _, _, t) => attempts t <= 3 - count
    | (Raise e, _, t) => e = unable_to_correct /\ attempts t = 3 - count
    end.
Proof.
  intros count. remember (3 - count) as n eqn:Hn.
  revert count Hn. induction n as [|n IH]; intros count Hn w.
  - rewrite fix_pm_states_from_exhausted by lia. split; reflexivity.
  - rewrite fix_pm_states_from_step by lia.
    pose proof (repair_and_install_attempts escaped w) as A1.
    destruct (Pm.repair_and_install escaped w) as [[[u|e] w1] t1];
      simpl in A1; [lia|].
    specialize (IH (S count) ltac:(lia) w1).
    destruct (Pm.fix_pm_states_from escaped (S count) w1) as [[[u|e'] w2] t2];
      rewrite attempts_app; [lia|].
    destruct IH as [-> IH]. split; [reflexivity|lia].
Qed.

Lemma install_from_repo_apt_get_only (packages : list string) :
  emits (apt_get_only (map escape_package_name packages))
        (Pm.install_from_repo packages).
Proof.
  unfold Pm.install_from_repo, Pm.fix_pm_states, Pm.check_call.
  apply emits_bind; [apply emits_logging; exact I|intros _].
  apply emits_try_except; [apply emits_external; simpl; auto|intros _].
  apply emits_bind; [apply emits_logging; exact I|intros _].
  apply fix_pm_states_from_apt_get_only.
Qed.

(** X5: whatever the host does, [install_from_repo] runs nothing but
    [apt-get install]: every command of its trace is the force-repair
    command or the installation of exactly the given names, each
    escaped; it runs at most three repairs. *)
Theorem install_from_repo_commands (packages : list string) (w : World) :
  Forall (apt_get_only (map escape_package_name packages))
         (Pm.install_from_repo packages w).2 /\
  attempts (Pm.install_from_repo packages w).2 <= 3.
Proof.
  split; [apply install_from_repo_apt_get_only|].
  - unfold Pm.install_from_repo, Pm.fix_pm_states, Pm.check_call.
    unfold bind at 1, logging, emit, try_except, external.
    destruct (spawn _ w) as [[[]|e] w1]; cbn [snd app];
      rewrite ?attempts_cons, ?install_command_is_no_repair;
      [simpl; unfold attempts; simpl; lia|].
    destruct (is_CalledProcessError e); cbn [snd app];
      rewrite ?attempts_cons, ?install_command_is_no_repair;
      [|simpl; unfold attempts; simpl; lia].
    unfold bind, emit.
    pose proof (fix_pm_states_from_outcome
                  (map escape_package_name packages) 0 w1) as Hout.
    destruct (Pm.fix_pm_states_from _ 0 w1) as [[[u|e'] w2] t2];
      cbn [snd app]; rewrite ?attempts_cons, ?install_command_is_no_repair;
      simpl; [lia|destruct Hout; lia].
Qed.

(** X6: [install_from_repo] never lets a non-zero exit status through.
    When it raises, either the first [apt-get] could not be run at all
    (any exception but [CalledProcessError]): the exception is passed on
    and no repair is attempted; or the first installation exited
    non-zero and three repair attempts failed: the error is the
    unable-to-correct error.  When the first installation succeeds it
    is the only command. *)
Theorem install_from_repo_outcome (packages : list string) (w : World) :
  let first := spawn (Pm.install_command (map escape_package_name packages)) w in
  match Pm.install_from_repo packages w with
  | (Ok _, _, t) =>
      match first.1 with
      | Ok _ => count is_spawn t = 1 /\ attempts t = 0
      | Raise e => is_CalledProcessError e = true /\ 1 <= attempts t <= 3
      end
  | (Raise e, w', t) =>
      is_CalledProcessError e = false /\
      (e = unable_to_correct /\ attempts t = 3 /\
       (exists e1, first.1 = Raise e1 /\ is_CalledProcessError e1 = true) \/
       first = (Raise e, w') /\ count is_spawn t = 1 /\ attempts t = 0)
  end.
Proof.
  intros first. subst first.
  unfold Pm.install_from_repo, Pm.fix_pm_states, Pm.check_call.
  unfold bind at 1, logging, emit, try_except, external.
  destruct (spawn _ w) as [[[]|e] w1] eqn:Hfirst; cbn [fst snd app].
  { rewrite !attempts_cons, install_command_is_no_repair. split; reflexivity. }
  destruct (is_CalledProcessError e) eqn:He; cbn [fst snd app].
  - unfold bind, emit.
    pose proof (fix_pm_states_from_outcome
                  (map escape_package_name packages) 0 w1) as Hout.
    pose proof (fix_pm_states_from_step
                  (map escape_package_name packages) 0 w1 ltac:(lia)) as Hstep.
    pose proof (repair_and_install_attempts
                  (map escape_package_name packages) w1) as A1.
    destruct (Pm.fix_pm_states_from _ 0 w1) as [[[u|e'] w2] t2];
      cbn [fst snd app];
      rewrite !attempts_cons, install_command_is_no_repair; simpl.
    + split; [reflexivity|].
      assert (1 <= attempts t2); [|lia].
      destruct (Pm.repair_and_install _ w1) as [[[u1|e1] w3] t3];
        simpl in A1.
      * injection Hstep; intros; subst. lia.
      * destruct (Pm.fix_pm_states_from _ 1 w3) as [[r4 w4] t4].
        injection Hstep; intros; subst. rewrite attempts_app. lia.
    + destruct Hout as [-> Hatt]. split; [reflexivity|]. left.
      split; [reflexivity|]. split; [lia|eauto].
  - rewrite !attempts_cons, install_command_is_no_repair.
    split; [exact He|]. right. repeat split.
Qed.

End PmMore.

(** ** The bridge: queries and filtering *)

Lemma bind_Raise {World A B : Type} (m : M World A) (k : A -> M World B)
    (w : World) (e : exn) (w1 : World) (t1 : list event) :
  m w = (Raise e, w1, t1) -> bind m k w = (Raise e, w1, t1).
Proof. unfold bind. now intros ->. Qed.

Section FilterMore.
Context {World : Type} `{Subprocess World}.

(** A query of the host is one command; a non-zero exit status is its
    answer "no", never an exception. *)
Lemma query_outcome (fmt : string) (command : list string) (name : string)
    (w : World) :
  let run :=
    (logging DEBUG fmt [AStr name] ;;;
     try_except (Pm.check_output command ;;; ret true)
                is_CalledProcessError (fun _ => ret false))%acbs w in
  count is_spawn run.2 = 1 /\
  match run.1.1 with
  | Ok _ => True
  | Raise e => is_CalledProcessError e = false
  end.
Proof.
  unfold bind, logging, emit, try_except, Pm.check_output, external, ret.
  destruct (spawn command w) as [[[]|e] w1]; simpl; [auto|].
  destruct (is_CalledProcessError e) eqn:He; simpl; auto.
Qed.

Lemma check_if_installed_outcome (name : string) (w : World) :
  count is_spawn (Pm.check_if_installed name w).2 = 1 /\
  match (Pm.check_if_installed name w).1.1 with
  | Ok _ => True
  | Raise e => is_CalledProcessError e = false
  end.
Proof. apply query_outcome. Qed.

Lemma check_if_available_outcome (name : string) (w : World) :
  count is_spawn (Pm.check_if_available name w).2 = 1 /\
  match (Pm.check_if_available name w).1.1 with
  | Ok _ => True
  | Raise e => is_CalledProcessError e = false
  end.
Proof. apply query_outcome. Qed.

Lemma check_if_installed_query (names : list string) (name : string) :
  name ∈ names -> emits (query_of names) (Pm.check_if_installed name).
Proof.
  intros Hin. unfold Pm.check_if_installed, Pm.check_output.
  repeat first
    [ apply emits_external; simpl; eauto | apply emits_logging; exact I
    | emits_step ].
Qed.

Lemma check_if_available_query (names : list string) (name : string) :
  name ∈ names -> emits (query_of names) (Pm.check_if_available name).
Proof.
  intros Hin. unfold Pm.check_if_available, Pm.check_output.
  repeat first
    [ apply emits_external; simpl; eauto | apply emits_logging; exact I
    | emits_step ].
Qed.

Lemma filter_loop_queries (names : list string) (todo : list string) :
  (forall dep, dep ∈ todo -> dep ∈ names) ->
  forall installables deps (w : World),
    Forall (query_of names) (Pm.filter_loop todo installables deps w).2 /\
    count is_spawn (Pm.filter_loop todo installables deps w).2
      <= 2 * length todo /\
    match (Pm.filter_loop todo installables deps w).1.1 with
    | Ok _ => True
    | Raise e => is_CalledProcessError e = false
    end.
Proof.
  induction todo as [|dep todo IH]; intros Hsub ins ds w.
  - split; [apply Forall_nil_2|split; [unfold count; simpl; lia|exact I]].
  - assert (Hdep : dep ∈ names) by (apply Hsub; constructor).
    assert (Hrest : forall d, d ∈ todo -> d ∈ names)
      by (intros d Hd; apply Hsub; now constructor).
    specialize (IH Hrest).
    cbn [Pm.filter_loop].
    pose proof (check_if_installed_query names dep Hdep w) as Q1.
    pose proof (check_if_installed_outcome dep w) as [C1 O1].
    destruct (Pm.check_if_installed dep w) as [[[installed|e] w1] t1] eqn:E1;
      simpl in C1, O1, Q1;
      [rewrite (bind_Ok _ _ _ _ _ _ E1)
      |rewrite (bind_Raise _ _ _ _ _ _ E1); simpl;
       split; [exact Q1|split; [lia|exact O1]]].
    destruct installed.
    + destruct (IH ins ds w1) as (F & C & O).
      destruct (Pm.filter_loop todo ins ds w1) as [[r w2] t2].
      simpl in *. rewrite count_app.
      split; [apply Forall_app; auto|split; [lia|exact O]].
    + pose proof (check_if_available_query names dep Hdep w1) as Q2.
      pose proof (check_if_available_outcome dep w1) as [C2 O2].
      destruct (Pm.check_if_available dep w1) as [[[available|e] w2] t2] eqn:E2;
        simpl in C2, O2, Q2;
        [rewrite (bind_Ok _ _ _ _ _ _ E2)
        |rewrite (bind_Raise _ _ _ _ _ _ E2); simpl; rewrite count_app;
         split; [apply Forall_app; auto|split; [lia|exact O2]]].
      destruct available;
        [destruct (IH (ins ++ [dep]) ds w2) as (F & C & O);
         destruct (Pm.filter_loop todo (ins ++ [dep]) ds w2) as [[r w3] t3]
        |destruct (IH ins (ds ++ [dep]) w2) as (F & C & O);
         destruct (Pm.filter_loop todo ins (ds ++ [dep]) w2) as [[r w3] t3]];
        simpl in *; rewrite !count_app;
        (split; [repeat (apply Forall_app; split); auto|split; [lia|exact O]]).
Qed.

(** X7: [filter_dependencies] asks the host about the dependencies of
    the package and about nothing else: every command it runs is
    [dpkg -s dep] or [apt-cache show] of the escaped [dep] for a [dep]
    of the package, at most two per dependency; and it never raises
    [CalledProcessError], a non-zero exit status being an answer. *)
Theorem filter_dependencies_queries (package : ACBSPackageInfo) (w : World) :
  Forall (query_of (deps package)) (Pm.filter_dependencies package w).2 /\
  count is_spawn (Pm.filter_dependencies package w).2
    <= 2 * length (deps package) /\
  match (Pm.filter_dependencies package w).1.1 with
  | Ok _ => True
  | Raise e => is_CalledProcessError e = false
  end.
Proof.
  destruct (filter_loop_queries (deps package) (deps package)
              (fun _ Hd => Hd) [] [] w) as (F & C & O).
  unfold Pm.filter_dependencies, bind.
  destruct (Pm.filter_loop (deps package) [] [] w) as [[[r|e] w1] t1];
    simpl in *; rewrite ?app_nil_r, ?count_app; repeat split;
    assumption.
Qed.

(** *** On a host that answers the queries without changing *)

Section ReadOnly.
Variables (w : World) (is_installed is_available : string -> bool).
Hypothesis dpkg_status :
  forall pkg,
    spawn ["dpkg"; "-s"; pkg] w
    = (if is_installed pkg then Ok tt else Raise CalledProcessError, w).
Hypothesis apt_cache_show :
  forall pkg,
    spawn ["apt-cache"; "show"; escape_package_name pkg] w
    = (if is_available pkg then Ok tt else Raise CalledProcessError, w).

Lemma check_if_installed_read_only (pkg : string) :
  Pm.check_if_installed pkg w
  = (Ok (is_installed pkg), w,
     [Log DEBUG "Checking if %s is installed" [AStr pkg];
      Call (Spawn ["dpkg"; "-s"; pkg])]).
Proof.
  unfold Pm.check_if_installed, bind, logging, emit, try_except,
    Pm.check_output, external, ret.
  rewrite dpkg_status. now destruct (is_installed pkg).
Qed.

Lemma check_if_available_read_only (pkg : string) :
  Pm.check_if_available pkg w
  = (Ok (is_available pkg), w,
     [Log DEBUG "Checking if %s is available" [AStr pkg];
      Call (Spawn ["apt-cache"; "show"; escape_package_name pkg])]).
Proof.
  unfold Pm.check_if_available, bind, logging, emit, try_except,
    Pm.check_output, external, ret.
  rewrite apt_cache_show. now destruct (is_available pkg).
Qed.

Lemma filter_loop_read_only (todo : list string) :
  forall installables deps,
  exists t,
    Pm.filter_loop todo installables deps w
    = (Ok (installables
           ++ List.filter (to_install is_installed is_available) todo,
           deps ++ List.filter (to_build is_installed is_available) todo),
       w, t).
Proof.
  induction todo as [|dep todo IH]; intros ins ds.
  - exists []. simpl. now rewrite !app_nil_r.
  - cbn [Pm.filter_loop List.filter].
    rewrite (bind_Ok _ _ _ _ _ _ (check_if_installed_read_only dep)).
    unfold to_install, to_build.
    destruct (is_installed dep); cbn [negb andb].
    + destruct (IH ins ds) as [t ->]. eauto.
    + rewrite (bind_Ok _ _ _ _ _ _ (check_if_available_read_only dep)).
      destruct (is_available dep); cbn [negb andb].
      * destruct (IH (ins ++ [dep]) ds) as [t ->].
        rewrite <- app_assoc. eauto.
      * destruct (IH ins (ds ++ [dep])) as [t ->].
        rewrite <- app_assoc. eauto.
Qed.

Lemma filter_dependencies_read_only (package : ACBSPackageInfo) :
  exists t,
    Pm.filter_dependencies package w
    = (Ok (set_deps package
             (List.filter (to_build is_installed is_available) (deps package))
             (List.filter (to_install is_installed is_available)
                          (deps package))), w, t).
Proof.
  unfold Pm.filter_dependencies, bind.
  destruct (filter_loop_read_only (deps package) [] []) as [t ->].
  simpl. eauto.
Qed.

Lemma filter_to_install_to_build (l : list string) :
  List.filter (to_install is_installed is_available)
              (List.filter (to_build is_installed is_available) l) = [] /\
  List.filter (to_build is_installed is_available)
              (List.filter (to_build is_installed is_available) l)
  = List.filter (to_build is_installed is_available) l.
Proof.
  induction l as [|x l [IH1 IH2]]; [split; reflexivity|].
  simpl. destruct (to_build is_installed is_available x) eqn:Hb;
    [|split; assumption].
  simpl. rewrite Hb, IH1, IH2.
  assert (Hi : to_install is_installed is_available x = false).
  { unfold to_install, to_build in *.
    destruct (is_installed x), (is_available x); try discriminate;
      reflexivity. }
  rewrite Hi. split; reflexivity.
Qed.

End ReadOnly.

(** X8: on a host whose answers to [dpkg -s] and [apt-cache show] are
    fixed and whose state the queries leave alone, [filter_dependencies]
    returns the package with [installables] the dependencies that are
    not installed but available and [deps] those that are neither, both
    in the order of the old [deps]; installed dependencies are in
    neither list. *)
Theorem filter_dependencies_on_stable_host (w : World)
    (is_installed is_available : string -> bool) (package : ACBSPackageInfo) :
  (forall pkg,
     spawn ["dpkg"; "-s"; pkg] w
     = (if is_installed pkg then Ok tt else Raise CalledProcessError, w)) ->
  (forall pkg,
     spawn ["apt-cache"; "show"; escape_package_name pkg] w
     = (if is_available pkg then Ok tt else Raise CalledProcessError, w)) ->
  exists t,
    Pm.filter_dependencies package w
    = (Ok (set_deps package
             (List.filter (fun dep => negb (is_installed dep)
                                      && negb (is_available dep))
                          (deps package))
             (List.filter (fun dep => negb (is_installed dep)
                                      && is_available dep)
                          (deps package))), w, t).
Proof.
  intros Hd Ha.
  exact (filter_dependencies_read_only w is_installed is_available Hd Ha package).
Qed.

(** X9: filtering is not repeatable: on such a host a second
    [filter_dependencies] of the package the first one returned keeps
    [deps] but empties [installables], since the installable names are
    no longer among the dependencies it looks at. *)
Theorem filter_dependencies_twice (w : World)
    (is_installed is_available : string -> bool)
    (package once : ACBSPackageInfo) (t1 : list event) :
  (forall pkg,
     spawn ["dpkg"; "-s"; pkg] w
     = (if is_installed pkg then Ok tt else Raise CalledProcessError, w)) ->
  (forall pkg,
     spawn ["apt-cache"; "show"; escape_package_name pkg] w
     = (if is_available pkg then Ok tt else Raise CalledProcessError, w)) ->
  Pm.filter_dependencies package w = (Ok once, w, t1) ->
  exists t2,
    Pm.filter_dependencies once w = (Ok (set_deps once (deps once) []), w, t2).
Proof.
  intros Hd Ha Hfirst.
  destruct (filter_dependencies_read_only w is_installed is_available
              Hd Ha package) as [t Hrun].
  rewrite Hrun in Hfirst. injection Hfirst as <- _.
  destruct (filter_dependencies_read_only w is_installed is_available
              Hd Ha
              (set_deps package
                 (List.filter (to_build is_installed is_available)
                              (deps package))
                 (List.filter (to_install is_installed is_available)
                              (deps package)))) as [t2 Hrun2].
  exists t2. rewrite Hrun2. cbn [deps set_deps].
  destruct (filter_to_install_to_build is_installed is_available
              (deps package)) as [-> ->].
  reflexivity.
Qed.

End FilterMore.

(** ** The dependency coordinator: exits *)

Section DepsMore.
Context {World : Type} `{PackageManager World}.

(** The check passes unless the package lists itself without a binary
    package. *)
Lemma check_self_dependency_passes (w : World) (pkg_slug : string)
    (tmp : list string) :
  (pkg_slug ∈ tmp -> has_binary w pkg_slug) ->
  exists t0,
    Deps.check_self_dependency w pkg_slug tmp [] = (Ok (non_blank tmp), t0).
Proof.
  intros Hb.
  destruct (Deps.check_self_dependency w pkg_slug tmp []) as [[sp|e] t0] eqn:E.
  - apply check_self_dependency_Ok in E as (-> & _ & _). eauto.
  - apply check_self_dependency_Raise in E as (_ & Hin & Hn & _).
    destruct (binary_exclusive _ _ (Hb Hin) Hn).
Qed.

Lemma truthy_set_unresolved (w : World) (pkgs : list string) (s : gset string) :
  Deps.search_deps w pkgs = (None, Some s) -> truthy_set (Some s) = Some s.
Proof.
  intros Hs. destruct (search_deps_cases w pkgs) as [[l Hl]|(s' & Hs' & Hne)];
    [congruence|].
  assert (s' = s) as -> by congruence. simpl. now case_decide.
Qed.

(** X10: all or nothing.  When the search finds a dependency that is
    neither installed nor installable, a call with a counter of at most
    1 installs none of the installable ones: it returns the set of the
    unresolved names and leaves the host and the counter as they are. *)
Theorem process_deps_unresolved (self : Deps.Dependencies)
    (build_deps run_deps : list string) (pkg_slug : string) (w : World)
    (s : gset string) :
  Deps.retry self <= 1 ->
  (pkg_slug ∈ build_deps ++ run_deps -> has_binary w pkg_slug) ->
  Deps.search_deps w (non_blank (build_deps ++ run_deps)) = (None, Some s) ->
  exists t,
    Deps.process_deps self build_deps run_deps pkg_slug w
    = (Ok (PySet s), self, w, t) /\
    count is_install t = 0 /\ s <> ∅.
Proof.
  intros Hle Hb Hs.
  destruct (check_self_dependency_passes _ _ _ Hb) as [t0 Hchk].
  pose proof (check_self_dependency_trace w pkg_slug
                (build_deps ++ run_deps) []) as [n Ht].
  rewrite Hchk in Ht. simpl in Ht. subst t0.
  rewrite process_deps_unfold. unfold invocation.
  rewrite Hchk. cbn zeta. rewrite Hs. cbn [fst snd].
  rewrite (truthy_set_unresolved _ _ _ Hs).
  case_decide; [lia|].
  eexists. split; [reflexivity|]. split; [count_trace; reflexivity|].
  destruct (search_deps_cases w (non_blank (build_deps ++ run_deps)))
    as [[l Hl]|(s' & Hs' & Hne)]; congruence.
Qed.

(** X11: in exhaust mode the union is never built when something is
    unresolved: with a counter above 1 and a dependency that is neither
    installed nor installable, the call raises [TypeError] (line 40 adds
    a list to a set), after logging the exhaust-mode warning and without
    touching the host. *)
Theorem process_deps_exhaust_unresolved (self : Deps.Dependencies)
    (build_deps run_deps : list string) (pkg_slug : string) (w : World)
    (s : gset string) :
  1 < Deps.retry self ->
  (pkg_slug ∈ build_deps ++ run_deps -> has_binary w pkg_slug) ->
  Deps.search_deps w (non_blank (build_deps ++ run_deps)) = (None, Some s) ->
  exists t,
    Deps.process_deps self build_deps run_deps pkg_slug w
    = (Raise Deps.set_plus_list_error, self, w, t) /\
    count is_exhaust t = 1 /\ count is_install t = 0.
Proof.
  intros Hgt Hb Hs.
  destruct (check_self_dependency_passes _ _ _ Hb) as [t0 Hchk].
  pose proof (check_self_dependency_trace w pkg_slug
                (build_deps ++ run_deps) []) as [n Ht].
  rewrite Hchk in Ht. simpl in Ht. subst t0.
  rewrite process_deps_unfold. unfold invocation.
  rewrite Hchk. cbn zeta. rewrite Hs. cbn [fst snd].
  rewrite (truthy_set_unresolved _ _ _ Hs).
  case_decide; [|lia].
  eexists. split; [reflexivity|]. split; count_trace; reflexivity.
Qed.

(** What an invocation that exits can hand back. *)
Lemma invocation_Done_value (self : Deps.Dependencies)
    (build_deps run_deps : list string) (pkg_slug : string) (w w' : World)
    (v : pyval) (t : list event) :
  invocation self build_deps run_deps pkg_slug w = Done (Ok v) w' t ->
  match v with
  | PyList _ => 1 < Deps.retry self
  | PySet s =>
      Deps.retry self <= 1 /\ s <> ∅ /\ w' = w /\ count is_install t = 0 /\
      Deps.search_deps w (non_blank (build_deps ++ run_deps)) = (None, Some s)
  | PyNone => Deps.retry self <= 1
  end.
Proof.
  unfold invocation.
  destruct (Deps.check_self_dependency _ _ _ _) as [[sp|e] t0] eqn:Hchk;
    [|discriminate].
  apply check_self_dependency_Ok in Hchk as (-> & -> & _).
  cbn zeta.
  destruct (search_deps_cases w ([] ++ non_blank (build_deps ++ run_deps)))
    as [[l Hl]|(s' & Hs' & Hne)].
  - rewrite Hl. cbn [fst snd truthy_set or_empty].
    case_decide; [intros [= <- _ _]; assumption|].
    destruct l as [|p ps]; [intros [= <- _ _]; lia|].
    destruct (install_pkgs (p :: ps) w) as [[u|e] w1];
      [|destruct (correct_deps w1) as [[u|e'] w2]; discriminate].
    intros [= <- _ _]. lia.
  - rewrite Hs'. cbn [fst snd].
    rewrite (truthy_set_unresolved _ _ _ Hs').
    case_decide; [discriminate|].
    intros [= <- <- <-]. count_trace.
    split; [lia|]. split; [assumption|]. split; [reflexivity|].
    split; [reflexivity|]. rewrite <- Hs'. reflexivity.
Qed.

(** X12: what the kind of the returned value tells the caller.  A list
    is returned only by a call that started with the counter above 1
    (exhaust mode entered directly): a run that had to retry never
    returns one.  A set is never empty and is the set of unresolved
    names of a run that installed nothing.  [None] is never the value of
    a call in exhaust mode. *)
Theorem process_deps_value (self : Deps.Dependencies)
    (build_deps run_deps : list string) (pkg_slug : string) (w : World)
    (v : pyval) self' w' t :
  Deps.process_deps self build_deps run_deps pkg_slug w
  = (Ok v, self', w', t) ->
  match v with
  | PyList _ => 1 < Deps.retry self /\ self' = self /\ w' = w
  | PySet s =>
      Deps.retry self <= 1 /\ s <> ∅ /\ self' = self /\ w' = w /\
      count is_install t = 0 /\
      Deps.search_deps w (non_blank (build_deps ++ run_deps)) = (None, Some s)
  | PyNone => Deps.retry self <= 1
  end.
Proof.
  intros Hrun.
  pose proof (process_deps_facts _ _ _ _ _ _ _ _ _ Hrun)
    as (_ & _ & _ & _ & _ & _ & _ & Hex).
  rewrite process_deps_unfold in Hrun.
  destruct (invocation self build_deps run_deps pkg_slug w)
    as [r0 w0 t0|w2 t2] eqn:Hinv.
  - injection Hrun as -> <- <- <-.
    apply invocation_Done_value in Hinv. destruct v.
    + exact Hinv.
    + split; [exact Hinv|]. destruct (Hex Hinv) as (_ & -> & _). auto.
    + destruct Hinv as (? & ? & ? & ? & ?). auto 10.
  - apply invocation_Retry in Hinv as (Hle & _).
    destruct (Deps.process_deps _ _ _ _ w2) as [[[r3 self3] w3] t3].
    injection Hrun as Hr _ _ _. destruct r3; [|discriminate].
    injection Hr as <-. exact Hle.
Qed.

Lemma process_deps_installs (n : nat) :
  forall (self : Deps.Dependencies), 2 - Deps.retry self <= n ->
  forall build_deps run_deps pkg_slug w r self' w' t,
    Deps.process_deps self build_deps run_deps pkg_slug w = (r, self', w', t) ->
    count is_install t <= 2 - Deps.retry self /\
    (count is_install t = 0 -> self' = self /\ w' = w).
Proof.
  induction n as [|n IH]; intros self Hn bd rd slug w r self' w' t;
    rewrite process_deps_unfold;
    destruct (invocation self bd rd slug w) as [r0 w0 t0|w2 t2] eqn:Hinv.
  1, 3: intros [= <- <- <- <-];
    apply invocation_Done in Hinv as (_ & Hins & _ & Hw & Hex & _);
    (split;
     [destruct (le_lt_dec (Deps.retry self) 1) as [Hle|Hgt];
      [lia|destruct (Hex Hgt) as [Hz _]; lia]
     |intros Hz; split; [reflexivity|exact (Hw Hz)]]).
  - apply invocation_Retry in Hinv as (Hle & _). lia.
  - apply invocation_Retry in Hinv as (Hle & _ & Hins & _).
    destruct (Deps.process_deps _ bd rd slug w2) as [[[r3 self3] w3] t3]
      eqn:Hrec.
    intros [= <- <- <- <-].
    apply IH in Hrec as [Hb _]; [|simpl; lia]. simpl in Hb.
    rewrite count_app, Hins. split; lia.
Qed.

(** X13: a run attempts at most two installations, fewer the higher the
    counter stands at its start (at most [2 - retry]); only an
    installation changes the host: a run without one returns the host
    and the instance unchanged. *)
Theorem process_deps_install_bound (self : Deps.Dependencies)
    (build_deps run_deps : list string) (pkg_slug : string) (w : World) :
  match Deps.process_deps self build_deps run_deps pkg_slug w with
  | (_, self', w', t) =>
      count is_install t <= 2 - Deps.retry self /\
      count is_install t <= 2 /\
      (if decide (count is_install t = 0)
       then self' = self /\ w' = w else True)
  end.
Proof.
  destruct (Deps.process_deps self build_deps run_deps pkg_slug w)
    as [[[r self'] w'] t] eqn:Hrun.
  apply (process_deps_installs _ _ (Nat.le_refl _)) in Hrun as [Hb Hz].
  split; [exact Hb|]. split; [lia|]. case_decide; auto.
Qed.

End DepsMore.

(** ** The build driver: the other paths *)

Lemma emits_bind_inv {World A B : Type} (P : event -> Prop)
    (m : M World A) (k : A -> M World B) :
  emits P m ->
  (forall a w w1 t1, m w = (Ok a, w1, t1) -> emits P (k a)) ->
  emits P (bind m k).
Proof.
  intros Hm Hk w. unfold bind. specialize (Hm w).
  destruct (m w) as [[[a|e] w1] t1] eqn:Hrun; [|exact Hm].
  specialize (Hk a w w1 t1 Hrun w1). destruct (k a w1) as [[r w2] t2].
  apply Forall_app. split; assumption.
Qed.

Lemma bind_assoc {World A B C : Type} (m : M World A) (k : A -> M World B)
    (k' : B -> M World C) (w : World) :
  bind (bind m k) k' w = bind m (fun a => bind (k a) k') w.
Proof.
  unfold bind. destruct (m w) as [[[a|e] w1] t1]; [|reflexivity].
  destruct (k a w1) as [[[b|e] w2] t2]; [|reflexivity].
  destruct (k' b w2) as [[r w3] t3]. now rewrite app_assoc.
Qed.

Lemma bind_ext {World A B : Type} (m : M World A) (k k' : A -> M World B)
    (w : World) :
  (forall a w1, k a w1 = k' a w1) -> bind m k w = bind m k' w.
Proof.
  intros Hk. unfold bind. destruct (m w) as [[[a|e] w1] t1]; [|reflexivity].
  now rewrite Hk.
Qed.

Lemma bind_raise {World A B : Type} (e : exn) (k : A -> M World B) (w : World) :
  bind (raise e) k w = raise e w.
Proof. reflexivity. Qed.

Lemma bind_ret {World A B : Type} (a : A) (k : A -> M World B) (w : World) :
  bind (ret a) k w = k a w.
Proof. unfold bind, ret. now destruct (k a w) as [[r w1] t1]. Qed.

Lemma emits_impl {World A : Type} (P Q : event -> Prop) (m : M World A) :
  (forall ev, P ev -> Q ev) -> emits P m -> emits Q m.
Proof.
  intros Himpl Hm w. specialize (Hm w).
  eapply Forall_impl; [exact Hm|exact Himpl].
Qed.

Section MainMore.
Context {World : Type} `{BuildEnv World} `{Subprocess World}.

(** *** The scan without loops *)

(** X14: a resolution without loops passes the scan whole: the queue is
    the components flattened, in their order, nothing is logged and the
    flag stays down; empty components are skipped silently. *)
Theorem check_loops_acyclic (resolved : list (list ACBSPackageInfo))
    (w : World) :
  Forall (fun dep => length dep <= 1) resolved ->
  Main.check_loops resolved false [] w = (Ok (false, concat resolved), w, []).
Proof.
  intros Hsmall. rewrite check_loops_run.
  assert (Hfacts : existsb is_loop resolved = false /\
                   List.filter is_loop resolved = [] /\
                   before_first_loop resolved = resolved).
  { induction Hsmall as [|dep rest Hdep _ (He & Hf & Hb)]; [repeat split|].
    assert (Hno : is_loop dep = false)
      by (unfold is_loop; apply Nat.ltb_ge; exact Hdep).
    simpl. rewrite Hno, He, Hf, Hb. repeat split. }
  destruct Hfacts as (-> & -> & ->). reflexivity.
Qed.

(** *** A request that is not found *)

Lemma find_packages_app (self : Main.BuildCore) (before after : list string) :
  forall (packages : list ACBSPackageInfo) (w : World),
    Main.find_packages self (before ++ after) packages w
    = bind (Main.find_packages self before packages)
           (fun found => Main.find_packages self after found) w.
Proof.
  induction before as [|i before IH]; intros packages w.
  - cbn [app Main.find_packages]. now rewrite bind_ret.
  - cbn [app Main.find_packages].
    rewrite bind_assoc. apply bind_ext. intros _ w1.
    rewrite bind_assoc. apply bind_ext. intros package w2.
    destruct package as [|p package]; [reflexivity|apply IH].
Qed.

(** X15: the first request for which the lookup finds nothing ends the
    run: [build] raises "Could not find package" for that name right
    after its lookup; the requests behind it are not looked up and no
    resolution is started. *)
Theorem build_stops_at_missing_package (self : Main.BuildCore)
    (before after : list string) (i : string)
    (found : list ACBSPackageInfo) (w w1 w2 : World) (t1 : list event) :
  Main.build_queue self = before ++ i :: after ->
  Main.find_packages self before [] w = (Ok found, w1, t1) ->
  find_package i (Main.tree_dir self) w1 = (Ok [], w2) ->
  Main.build self w
  = (Raise (RuntimeError ("Could not find package " +:+ i)), w2,
     [Log INFO "Searching and resolving dependencies..." []] ++ t1 ++
     [Log DEBUG "Finding {}..." [AStr i]; Call (FindPackage i)]).
Proof.
  intros Hqueue Hbefore Hmiss.
  assert (Hfind : Main.find_packages self (before ++ i :: after) [] w
    = (Raise (RuntimeError ("Could not find package " +:+ i)), w2,
       t1 ++ [Log DEBUG "Finding {}..." [AStr i]; Call (FindPackage i)])).
  { rewrite find_packages_app, (bind_Ok _ _ _ _ _ _ Hbefore).
    cbn [Main.find_packages].
    unfold bind, logging, emit, external, raise. rewrite Hmiss.
    reflexivity. }
  unfold Main.build. rewrite Hqueue.
  unfold bind at 1, logging, emit.
  rewrite (bind_Raise _ _ _ _ _ _ Hfind). reflexivity.
Qed.

(** *** Download-only mode *)

Lemma prepare_download_only (self : Main.BuildCore) (task : ACBSPackageInfo) :
  Main.dl_only self = true ->
  emits (fun ev => download_step ev = true) (Main.prepare self task).
Proof.
  intros Hdl. unfold Main.prepare. rewrite Hdl.
  repeat emits_step.
Qed.

(** X16: in download-only mode the loop only checks stamps and fetches:
    it allocates no build directory, stages nothing, runs no [apt-get]
    and no build tool, reads no clock; the timing entries it was given
    come back unchanged. *)
Theorem build_loop_download_only (self : Main.BuildCore)
    (packages : list ACBSPackageInfo) (timings : list BuildTiming) (w : World) :
  Main.dl_only self = true ->
  Forall (fun ev => download_step ev = true)
         (Main.build_loop self packages timings w).2 /\
  match (Main.build_loop self packages timings w).1.1 with
  | Ok timings' => timings' = timings
  | Raise _ => True
  end.
Proof.
  intros Hdl. revert timings w.
  induction packages as [|task rest IH]; intros timings w.
  - split; [constructor|reflexivity].
  - cbn [Main.build_loop]. unfold Main.build_task. rewrite bind_assoc.
    pose proof (prepare_download_only self task Hdl w) as Hp.
    destruct (Main.prepare self task w) as [[[prepared|e] w1] t1] eqn:Hprep;
      [rewrite (bind_Ok _ _ _ _ _ _ Hprep)
      |rewrite (bind_Raise _ _ _ _ _ _ Hprep); split; [exact Hp|exact I]].
    destruct prepared as [[staged build_dir]|].
    + apply prepare_Some in Hprep as [Hno _]. congruence.
    + rewrite bind_ret.
      destruct (IH timings w1) as [Ht Hr].
      destruct (Main.build_loop self rest timings w1) as [[r w2] t2].
      split; [apply Forall_app; split; assumption|exact Hr].
Qed.

(** *** What the preparation of a task does and does not do *)

Lemma same_but_location_fields (task staged : ACBSPackageInfo) :
  same_but_location task staged ->
  name staged = name task /\ installables staged = installables task /\
  source_uri staged = source_uri task.
Proof. intros [->|[dir ->]]; repeat split. Qed.

(** Walks through [prepare]: [leaf] closes the goals about single
    events; the staged task is related to the task. *)
Ltac prepare_walk leaf :=
  unfold Main.prepare;
  apply emits_bind; [apply emits_logging; leaf|intros _];
  apply emits_bind; [apply emits_external; leaf|intros ?];
  apply emits_bind;
    [match goal with |- emits _ (if ?b then _ else _) => destruct b end;
     [apply emits_external; leaf|apply emits_ret]|intros _];
  match goal with |- emits _ (if ?b then _ else _) => destruct b end;
    [apply emits_ret|];
  apply emits_bind_inv.

Lemma staging_keeps_task (self : Main.BuildCore) (task : ACBSPackageInfo)
    (source_name : string) (staged : ACBSPackageInfo * string)
    (w w1 : World) (t1 : list event) :
  (if negb (nonempty (build_location task)) then
     build_dir <- external MakeBuildDir (make_build_dir (Main.tmp_dir self)) ;;
     let task := set_build_location task build_dir in
     external (ProcessSource task source_name)
              (process_source task source_name) ;;;
     ret (task, build_dir)
   else
     stamped <- external (HasStamp (build_location task))
                         (has_stamp (build_location task)) ;;
     (if negb stamped then
        external (ProcessSource task source_name)
                 (process_source task source_name) ;;;
        let stamp := path_join (build_location task) ".acbs-stamp" in
        external (TouchStamp stamp) (touch stamp)
      else ret tt) ;;;
     ret (task, build_location task))%acbs w = (Ok staged, w1, t1) ->
  same_but_location task staged.1.
Proof.
  destruct (negb (nonempty (build_location task))).
  - intros (dir & w2 & t2 & t3 & _ & Hk & _)%bind_Ok_inv.
    apply bind_Ok_inv in Hk as (_ & w3 & t4 & t5 & _ & Hk & _).
    injection Hk as <- _ _. right. now exists dir.
  - intros (st & w2 & t2 & t3 & _ & Hk & _)%bind_Ok_inv.
    apply bind_Ok_inv in Hk as (_ & w3 & t4 & t5 & _ & Hk & _).
    injection Hk as <- _ _. now left.
Qed.

(** X17: an explicit [subdir] of the source settles the directory to
    build in: [guess_subdir] is never called for such a task. *)
Theorem prepare_explicit_subdir (self : Main.BuildCore)
    (task : ACBSPackageInfo) :
  nonempty (subdir (source_uri task)) = true ->
  emits (fun ev => is_guess ev = false) (Main.prepare self task).
Proof.
  intros Hsub. prepare_walk ltac:(reflexivity).
  - repeat emits_step.
  - intros staged w0 w1 t1 Hst.
    apply staging_keeps_task, same_but_location_fields in Hst
      as (_ & _ & Hs).
    cbn zeta. rewrite Hs, Hsub.
    apply emits_bind; [emits_step|intros build_dir].
    apply emits_bind; [|intros _; emits_step].
    destruct (installables staged.1); [emits_step|].
    apply emits_bind; [emits_step|intros _].
    apply install_from_repo_emits; intros; reflexivity.
Qed.

(** X18: the driver runs [apt-get] for a task only when the task has
    installables, and then only the installation of exactly those
    names, escaped, and the force-repair command; a task without
    installables starts no command at all. *)
Theorem prepare_installs_installables (self : Main.BuildCore)
    (task : ACBSPackageInfo) :
  emits (installs_for task) (Main.prepare self task).
Proof.
  prepare_walk ltac:(exact I).
  - repeat first [ apply emits_external; exact I | emits_step ].
  - intros staged w0 w1 t1 Hst.
    apply staging_keeps_task, same_but_location_fields in Hst
      as (_ & Hi & _).
    cbn zeta. rewrite Hi.
    apply emits_bind;
      [repeat first [ apply emits_external; exact I | emits_step ]
      |intros build_dir].
    apply emits_bind; [|intros _; emits_step].
    destruct (installables task) as [|p ps] eqn:Hins; [emits_step|].
    apply emits_bind; [apply emits_logging; exact I|intros _].
    eapply emits_impl; [|apply install_from_repo_apt_get_only].
    intros [lvl fmt args|line|[]]; simpl; try easy.
    intros Hcmd. rewrite Hins. split; [discriminate|exact Hcmd].
Qed.

(** X19: a build directory is allocated only for a task that comes
    without a build location, and the stamp file is written only for a
    task that comes with one, into that location: the driver never
    stamps the directory it has allocated itself. *)
Theorem prepare_location_rule (self : Main.BuildCore)
    (task : ACBSPackageInfo) :
  emits (location_rule task) (Main.prepare self task).
Proof.
  prepare_walk ltac:(exact I).
  - destruct (nonempty (build_location task)) eqn:Hloc; cbn [negb];
      repeat first
        [ apply emits_external; simpl; auto | emits_step ].
  - intros staged w0 w1 t1 _. cbn zeta.
    apply emits_bind;
      [repeat first [ apply emits_external; exact I | emits_step ]
      |intros build_dir].
    apply emits_bind; [|intros _; emits_step].
    destruct (installables staged.1); [emits_step|].
    apply emits_bind; [apply emits_logging; exact I|intros _].
    apply install_from_repo_emits; intros; exact I.
Qed.

(** *** A run that completes *)

Lemma no_loop_small (resolved : list (list ACBSPackageInfo)) :
  existsb is_loop resolved = false ->
  Forall (fun dep => length dep <= 1) resolved.
Proof.
  induction resolved as [|dep rest IH]; [constructor|].
  simpl. intros [Hdep Hrest]%orb_false_iff.
  constructor; [|auto]. unfold is_loop in Hdep. now apply Nat.ltb_ge.
Qed.

(** X20: when [build] gets through a resolution, the resolution held no
    loop and the last thing the run did was to print one timing report:
    in download-only mode an empty one, otherwise one entry per package
    of the flattened resolution, in build order. *)
Theorem build_resolved_completes (self : Main.BuildCore)
    (resolved : list (list ACBSPackageInfo)) (w w' : World) (t : list event) :
  Main.build_resolved self resolved w = (Ok tt, w', t) ->
  Forall (fun dep => length dep <= 1) resolved /\
  exists timings t',
    t = t' ++ [Call (PrintBuildTimings timings)] /\
    if Main.dl_only self then timings = []
    else map fst timings = map name (concat resolved).
Proof.
  unfold Main.build_resolved.
  intros ([] & w1 & t1 & t2 & _ & Hk & ->)%bind_Ok_inv.
  apply bind_Ok_inv in Hk as (checked & w2 & t3 & t4 & Hscan & Hk & ->).
  rewrite check_loops_run in Hscan. injection Hscan as <- _ _.
  cbn [fst snd orb] in Hk.
  destruct (existsb is_loop resolved) eqn:Hloop; [discriminate|].
  pose proof (no_loop_small _ Hloop) as Hsmall.
  split; [exact Hsmall|].
  assert (Hflat : before_first_loop resolved = resolved).
  { clear -Hsmall. induction Hsmall as [|dep rest Hdep _ IH]; [reflexivity|].
    simpl. unfold is_loop. rewrite (proj2 (Nat.ltb_ge _ _) Hdep).
    now rewrite IH. }
  rewrite Hflat in Hk. cbn [app] in Hk.
  apply bind_Ok_inv in Hk as (_ & w3 & t5 & t6 & _ & Hk & ->).
  apply bind_Ok_inv in Hk as (_ & w4 & t7 & t8 & _ & Hk & ->).
  apply bind_Ok_inv in Hk as (_ & w5 & t9 & t10 & _ & Hk & ->).
  apply bind_Ok_inv in Hk as (_ & w6 & t11 & t12 & _ & Hk & ->).
  apply bind_Ok_inv in Hk as (timings & w7 & t13 & t14 & Hloop' & Hk & ->).
  apply external_Ok_inv in Hk as [_ ->].
  apply build_loop_Ok in Hloop'.
  exists timings. eexists. split.
  - rewrite !app_assoc. reflexivity.
  - destruct (Main.dl_only self); [apply Hloop'|apply Hloop'].
Qed.

End MainMore.

(** ** The start-up *)

Section InitFacts.
Context {World : Type} `{InitEnv World}.

Lemma existsb_app_events (f : init_event -> bool) (t1 t2 : list init_event) :
  existsb f (t1 ++ t2) = existsb f t1 || existsb f t2.
Proof. apply existsb_app. Qed.

Lemma checked_directories_app (a b : list init_event) :
  checked_directories (a ++ b)
  = checked_directories a ++ checked_directories b.
Proof. induction a as [|[] a IHa]; simpl; congruence. Qed.

Lemma reached_forest_asked (t : list init_event) :
  existsb reached_forest t = false -> existsb asked_for_tree t = false.
Proof.
  induction t as [|ev t IH]; [reflexivity|].
  simpl. intros Hf. apply orb_false_iff in Hf as [Hev Hf].
  rewrite (IH Hf). now destruct ev.
Qed.

Lemma make_work_directories_run (directories : list string) :
  forall (w : World),
    match Init.make_work_directories directories w with
    | (ok, _, t) =>
        checked_directories t `prefix_of` directories /\
        (ok = true -> checked_directories t = directories) /\
        made_directories t `sublist_of` checked_directories t /\
        existsb reached_logger t = false /\
        existsb reached_forest t = false
    end.
Proof.
  induction directories as [|d rest IH]; intros w; simpl.
  - repeat split; [apply prefix_nil|constructor].
  - destruct (isdir d w) as [[[]|e] w1].
    + specialize (IH w1).
      destruct (Init.make_work_directories rest w1) as [[ok w2] t].
      destruct IH as (Hp & Hok & Hs & Hl & Hf). simpl.
      repeat split; try assumption.
      * now apply prefix_cons.
      * intros Ht. now rewrite (Hok Ht).
      * now apply sublist_cons_r; left.
    + destruct (makedirs d w1) as [[[]|e] w2].
      * specialize (IH w2).
        destruct (Init.make_work_directories rest w2) as [[ok w3] t].
        destruct IH as (Hp & Hok & Hs & Hl & Hf). simpl.
        repeat split; try assumption.
        -- now apply prefix_cons.
        -- intros Ht. now rewrite (Hok Ht).
        -- now apply sublist_skip.
      * simpl. repeat split; try discriminate.
        -- apply prefix_cons, prefix_nil.
        -- apply sublist_skip. constructor.
    + simpl. repeat split; try discriminate.
      * apply prefix_cons, prefix_nil.
      * constructor. constructor.
Qed.

(** X21: the work directories are tested in their order and the loop
    stops at the first call that raises: the directories tested are a
    prefix of the list, all of it when the loop gets through; a
    directory is created only after it has been tested, so the created
    ones are a sub-list of the tested ones. *)
Theorem work_directories_in_order (directories : list string) (w : World) :
  match Init.make_work_directories directories w with
  | (ok, _, t) =>
      checked_directories t `prefix_of` directories /\
      made_directories t `sublist_of` checked_directories t /\
      (if ok then checked_directories t = directories else True)
  end.
Proof.
  pose proof (make_work_directories_run directories w) as Hrun.
  destruct (Init.make_work_directories directories w) as [[ok w1] t].
  destruct Hrun as (Hp & Hok & Hs & _ & _).
  split; [exact Hp|]. split; [exact Hs|]. destruct ok; auto.
Qed.

(** X22: how a start-up ends.  An instance is returned only with a
    non-empty tree directory, after all four work directories were
    tested, the logger installed and the tree looked up.  Whatever
    raises while the directories are made comes out as the one
    [IOError], and then neither the logger is installed nor the forest
    file looked at.  A missing forest file is reported without asking
    for the tree.  An exception of a helper passes through only from
    the installation of the logger on. *)
Theorem start_up_outcome (args : Args) (w : World) :
  match Init.new args w with
  | (inr self, _, t) =>
      nonempty (Main.tree_dir self) = true /\
      Main.build_queue self = arg_packages args /\
      checked_directories t = [DUMP_DIR; TMP_DIR; CONF_DIR; LOG_DIR] /\
      existsb reached_logger t = true /\
      existsb asked_for_tree t = true
  | (inl (IOError msg), _, t) =>
      IOError msg = work_directories_error /\
      existsb reached_logger t = false /\
      existsb reached_forest t = false
  | (inl (PlainException msg), _, t) =>
      msg = "forest.conf not found" /\
      existsb reached_logger t = true /\
      existsb asked_for_tree t = false
  | (inl (ValueError msg), _, t) =>
      msg = "Tree not found!" /\ existsb asked_for_tree t = true
  | (inl (Propagated _), _, t) =>
      existsb reached_logger t = true /\
      checked_directories t = [DUMP_DIR; TMP_DIR; CONF_DIR; LOG_DIR]
  end.
Proof.
  unfold Init.new, Init.init.
  pose proof (make_work_directories_run
                [DUMP_DIR; TMP_DIR; CONF_DIR; LOG_DIR] w) as Hrun.
  destruct (Init.make_work_directories _ w) as [[ok w1] t1].
  destruct Hrun as (_ & Hok & _ & Hl & Hf).
  pose proof (reached_forest_asked t1 Hf) as Hasked.
  destruct ok.
  2: { cbn [app existsb reached_logger reached_forest orb].
       repeat split; assumption. }
  specialize (Hok eq_refl).
  destruct (install_logger _ w1) as [[[]|e] w2].
  2: { cbn [app existsb checked_directories reached_logger orb].
       rewrite existsb_app_events, checked_directories_app, Hok.
       simpl. rewrite orb_true_r. split; reflexivity. }
  unfold Init.find_tree.
  destruct (path_exists _ w2) as [[[]|e] w3].
  - destruct (get_tree_by_name _ _ w3) as [[tree_dir|e] w4].
    + destruct (nonempty tree_dir) eqn:Htree;
        cbn [app existsb checked_directories reached_logger
             asked_for_tree orb Main.tree_dir Main.build_queue];
        rewrite ?existsb_app_events, ?checked_directories_app, ?Hok;
        simpl; rewrite ?orb_true_r; repeat split; assumption.
    + cbn [app existsb checked_directories reached_logger orb].
      rewrite ?existsb_app_events, ?checked_directories_app, ?Hok.
      simpl. rewrite ?orb_true_r. split; reflexivity.
  - cbn [app existsb checked_directories reached_logger asked_for_tree orb].
    rewrite !existsb_app_events, Hasked. simpl.
    rewrite ?orb_true_r. repeat split.
  - cbn [app existsb checked_directories reached_logger orb].
    rewrite ?existsb_app_events, ?checked_directories_app, ?Hok.
    simpl. rewrite ?orb_true_r. split; reflexivity.
Qed.

End InitFacts.

(** ** Runs on the simulated host *)

Lemma sim_dpkg_status (h : SimHost) (pkg : string) :
  spawn (Subprocess := sim_subprocess) ["dpkg"; "-s"; pkg] h
  = (if sim_is_installed h pkg then Ok tt else Raise CalledProcessError, h).
Proof.
  unfold sim_is_installed. cbn.
  now destruct (bool_decide (pkg ∈ sim_installed h)).
Qed.

Lemma sim_apt_cache_show (h : SimHost) (pkg : string) :
  spawn (Subprocess := sim_subprocess)
    ["apt-cache"; "show"; escape_package_name pkg] h
  = (if sim_is_available h pkg then Ok tt else Raise CalledProcessError, h).
Proof.
  unfold sim_is_available. cbn.
  now destruct (bool_decide (escape_package_name pkg
                             ∈ map escape_package_name (sim_available h))).
Qed.

(** [demo] needs [zlib], which the repository has, and [libfoo], which
    it has not. *)
Lemma filter_dependencies_on_stable_host_witness :
  exists t,
    Pm.filter_dependencies (H := sim_subprocess) needs_zlib host_with_zlib
    = (Ok (set_deps needs_zlib ["libfoo"] ["zlib"]), host_with_zlib, t).
Proof.
  exact (filter_dependencies_on_stable_host (H := sim_subprocess)
           host_with_zlib (sim_is_installed host_with_zlib)
           (sim_is_available host_with_zlib) needs_zlib
           (sim_dpkg_status host_with_zlib)
           (sim_apt_cache_show host_with_zlib)).
Defined.

Lemma filter_dependencies_twice_witness :
  exists t2,
    Pm.filter_dependencies (H := sim_subprocess)
      (set_deps needs_zlib ["libfoo"] ["zlib"]) host_with_zlib
    = (Ok (set_deps needs_zlib ["libfoo"] []), host_with_zlib, t2).
Proof.
  exact (filter_dependencies_twice (H := sim_subprocess)
           host_with_zlib (sim_is_installed host_with_zlib)
           (sim_is_available host_with_zlib) needs_zlib
           (set_deps needs_zlib ["libfoo"] ["zlib"])
           (Pm.filter_dependencies (H := sim_subprocess)
              needs_zlib host_with_zlib).2
           (sim_dpkg_status host_with_zlib)
           (sim_apt_cache_show host_with_zlib)
           ltac:(vm_compute; reflexivity)).
Defined.

(** [zlib] could be installed, but [libfoo] is unresolved: nothing is
    installed. *)
Lemma process_deps_unresolved_witness :
  exists t,
    Deps.process_deps (H := sim_package_manager)
      Deps.init ["zlib"; "libfoo"] [] "demo" settled_host
    = (Ok (PySet {["libfoo"]}), Deps.init, settled_host, t) /\
    count is_install t = 0 /\ ({["libfoo"]} : gset string) <> ∅.
Proof.
  apply (process_deps_unresolved (H := sim_package_manager)
           Deps.init ["zlib"; "libfoo"] [] "demo" settled_host {["libfoo"]}).
  - simpl. lia.
  - intros Hin. exfalso.
    refine (proj1 (bool_decide_eq_false _) _ Hin).
    vm_compute. reflexivity.
  - vm_compute. reflexivity.
Defined.

Lemma process_deps_exhaust_unresolved_witness :
  exists t,
    Deps.process_deps (H := sim_package_manager)
      (Deps.mkDependencies 2) ["zlib"; "libfoo"] [] "demo" settled_host
    = (Raise Deps.set_plus_list_error, Deps.mkDependencies 2,
       settled_host, t) /\
    count is_exhaust t = 1 /\ count is_install t = 0.
Proof.
  apply (process_deps_exhaust_unresolved (H := sim_package_manager)
           (Deps.mkDependencies 2) ["zlib"; "libfoo"] [] "demo"
           settled_host {["libfoo"]}).
  - simpl. lia.
  - intros Hin. exfalso.
    refine (proj1 (bool_decide_eq_false _) _ Hin).
    vm_compute. reflexivity.
  - vm_compute. reflexivity.
Defined.

(** A list comes back from an instance whose counter stands at 2. *)
Lemma process_deps_value_witness :
  1 < Deps.retry (Deps.mkDependencies 2) /\
  Deps.mkDependencies 2 = Deps.mkDependencies 2 /\
  settled_host = settled_host.
Proof.
  exact (process_deps_value (H := sim_package_manager)
           (Deps.mkDependencies 2) ["zlib"] [] "demo" settled_host
           (PyList ["zlib"]) (Deps.mkDependencies 2) settled_host
           (Deps.prologue ["zlib"] [] ++ [Deps.msg_exhaust])
           ltac:(vm_compute; reflexivity)).
Defined.

Lemma check_loops_acyclic_witness :
  Main.check_loops (H := sim_build_env) acyclic_components false []
    looping_host
  = (Ok (false, [sim_package "a" []; sim_package "b" []]), looping_host, []).
Proof.
  apply (check_loops_acyclic (H := sim_build_env)
           acyclic_components looping_host).
  repeat constructor.
Defined.

(** [a] is found, [ghost] is not, [b] is never looked up. *)
Lemma build_stops_at_missing_package_witness :
  Main.build (H := sim_tree_without ["ghost"]) (H0 := sim_subprocess)
    (sim_core true ["a"; "ghost"; "b"]) settled_host
  = (Raise (RuntimeError "Could not find package ghost"), settled_host,
     [Log INFO "Searching and resolving dependencies..." [];
      Log DEBUG "Finding {}..." [AStr "a"]; Call (FindPackage "a");
      Log DEBUG "Finding {}..." [AStr "ghost"]; Call (FindPackage "ghost")]).
Proof.
  exact (build_stops_at_missing_package
           (H := sim_tree_without ["ghost"]) (H0 := sim_subprocess)
           (sim_core true ["a"; "ghost"; "b"]) ["a"] ["b"] "ghost"
           [sim_package "a" []] settled_host settled_host settled_host
           [Log DEBUG "Finding {}..." [AStr "a"]; Call (FindPackage "a")]
           eq_refl ltac:(vm_compute; reflexivity)
           ltac:(vm_compute; reflexivity)).
Defined.

Lemma build_loop_download_only_witness :
  Forall (fun ev => download_step ev = true)
         (Main.build_loop (H := sim_build_env) (H0 := sim_subprocess)
            (sim_download_core ["a"; "b"])
            [sim_package "a" []; sim_package "b" []] [] settled_host).2 /\
  match (Main.build_loop (H := sim_build_env) (H0 := sim_subprocess)
           (sim_download_core ["a"; "b"])
           [sim_package "a" []; sim_package "b" []] [] settled_host).1.1 with
  | Ok timings' => timings' = []
  | Raise _ => True
  end.
Proof.
  exact (build_loop_download_only (H := sim_build_env) (H0 := sim_subprocess)
           (sim_download_core ["a"; "b"])
           [sim_package "a" []; sim_package "b" []] [] settled_host eq_refl).
Defined.

(** The packages of the simulated tree unpack into [src]. *)
Lemma prepare_explicit_subdir_witness :
  emits (fun ev => is_guess ev = false)
        (Main.prepare (H := sim_build_env) (H0 := sim_subprocess)
           (sim_core true ["a"]) (sim_package "a" [])).
Proof.
  exact (prepare_explicit_subdir (H := sim_build_env) (H0 := sim_subprocess)
           (sim_core true ["a"]) (sim_package "a" []) eq_refl).
Defined.

Lemma build_resolved_completes_witness :
  Forall (fun dep => length dep <= 1) acyclic_components /\
  exists timings t',
    (Main.build_resolved (H := sim_build_env) (H0 := sim_subprocess)
       (sim_core true ["a"; "b"]) acyclic_components settled_host).2
    = t' ++ [Call (PrintBuildTimings timings)] /\
    map fst timings = ["a"; "b"].
Proof.
  exact (build_resolved_completes (H := sim_build_env) (H0 := sim_subprocess)
           (sim_core true ["a"; "b"]) acyclic_components settled_host
           settled_host
           (Main.build_resolved (H := sim_build_env) (H0 := sim_subprocess)
              (sim_core true ["a"; "b"]) acyclic_components settled_host).2
           ltac:(vm_compute; reflexivity)).
Defined.

(** Entries that [str.strip()] empties are not searched for: with only
    such dependencies the call finds all dependencies met, on a host
    that has no package at all. *)
Lemma blank_entries_are_dropped :
  blank no_break_space = true /\ blank next_line = true /\
  exists t,
    Deps.process_deps (H := sim_package_manager)
      Deps.init [no_break_space; next_line] [] "demo" empty_host
    = (Ok PyNone, Deps.init, empty_host, t) /\
    count is_install t = 0.
Proof.
  split; [reflexivity|]. split; [reflexivity|].
  eexists. split; [vm_compute; reflexivity|reflexivity].
Qed.
